(** * lpshipit: merge-proposal summaries, commit message and selection wizard

    A shallow embedding of [lpshipit.py].  Python [str] values are carried as
    Rocq [string]s holding their UTF-8 encoding: the literals of the program
    are ASCII, code-point order coincides with byte order on UTF-8, and the
    line boundaries of [str.splitlines] are matched on their encodings.
    Exceptions are values of [exn] returned through [result]. *)

From Stdlib Require Import String Ascii List Bool Arith NArith Lia.
From Stdlib Require Import DecimalString Permutation Sorted Orders Mergesort.
Import ListNotations.
Local Open Scope string_scope.
Local Open Scope list_scope.

(** ** Exceptions and fallible results *)

Inductive exn : Type :=
| IndexError
| KeyError
| ValueError
| GitCommandError
| ExitMainLoop.

Inductive result (A : Type) : Type :=
| Ok (a : A)
| Raise (e : exn).

Arguments Ok {A} a.
Arguments Raise {A} e.

Definition bind {A B : Type} (r : result A) (k : A -> result B) : result B :=
  match r with
  | Ok a => k a
  | Raise e => Raise e
  end.

Notation "x <- r ;; k" := (bind r (fun x => k))
  (at level 61, r at next level, right associativity).

(** ** The Python string primitives the program calls *)

Module Py.

(** [s.startswith(p)] *)
Definition startswith (s p : string) : bool := String.prefix p s.

(** [s[n:]] *)
Definition slice_from (n : nat) (s : string) : string :=
  String.substring n (String.length s - n) s.

(** [sep.join(parts)] *)
Definition join (sep : string) (parts : list string) : string :=
  String.concat sep parts.

(** [str(n)] for a non-negative [int] *)
Definition str_of_nat (n : nat) : string :=
  NilEmpty.string_of_uint (Nat.to_uint n).

(** [l[i]] on a list *)
Definition getitem {A : Type} (l : list A) (i : nat) : result A :=
  match nth_error l i with
  | Some a => Ok a
  | None => Raise IndexError
  end.

(** Truthiness of a value that is [None] or a [str]. *)
Definition truthy_str (v : option string) : bool :=
  match v with
  | None => false
  | Some s => negb (s =? "")
  end.

(** Truthiness of a value that is [None] or an [int]. *)
Definition truthy_int (v : option nat) : bool :=
  match v with
  | None => false
  | Some n => negb (n =? 0)%nat
  end.

(** Truthiness of a list. *)
Definition truthy_list {A : Type} (l : list A) : bool :=
  match l with
  | [] => false
  | _ :: _ => true
  end.

(** *** [str.format]

    The replacement fields the program writes are [{}] (next positional
    argument) and [{name}] (keyword argument); [{{] and [}}] are the escaped
    braces.  [fld] is [Some n] while the scan is inside a field whose name
    read so far is [n]. *)
Fixpoint format_go (tmpl : string) (fld : option string)
    (args : list string) (kwargs : list (string * string)) {struct tmpl}
    : result string :=
  match tmpl with
  | EmptyString =>
      match fld with
      | None => Ok EmptyString
      | Some _ => Raise ValueError
      end
  | String c t =>
      match fld with
      | None =>
          if Ascii.eqb c "{" then
            match t with
            | String c2 t2 =>
                if Ascii.eqb c2 "{"
                then r <- format_go t2 None args kwargs ;; Ok (String "{" r)
                else format_go t (Some EmptyString) args kwargs
            | EmptyString => Raise ValueError
            end
          else if Ascii.eqb c "}" then
            match t with
            | String c2 t2 =>
                if Ascii.eqb c2 "}"
                then r <- format_go t2 None args kwargs ;; Ok (String "}" r)
                else Raise ValueError
            | EmptyString => Raise ValueError
            end
          else r <- format_go t None args kwargs ;; Ok (String c r)
      | Some n =>
          if Ascii.eqb c "}" then
            match n with
            | EmptyString =>
                match args with
                | a :: args' =>
                    r <- format_go t None args' kwargs ;; Ok (a ++ r)%string
                | [] => Raise IndexError
                end
            | _ =>
                match find (fun kv => fst kv =? n) kwargs with
                | Some kv => r <- format_go t None args kwargs ;; Ok (snd kv ++ r)%string
                | None => Raise KeyError
                end
            end
          else format_go t (Some (n ++ String c EmptyString)%string) args kwargs
      end
  end.

Definition format (tmpl : string) (args : list string)
    (kwargs : list (string * string)) : result string :=
  format_go tmpl None args kwargs.

(** *** [str.splitlines]

    Line boundaries: LF, CR, CR LF, VT, FF, FS, GS, RS, and in UTF-8
    NEL (C2 85), LS (E2 80 A8), PS (E2 80 A9). *)
Definition LF : ascii := "010".
Definition VT : ascii := "011".
Definition FF : ascii := "012".
Definition CR : ascii := "013".
Definition FS : ascii := "028".
Definition GS : ascii := "029".
Definition RS : ascii := "030".
Definition xC2 : ascii := "194".
Definition x85 : ascii := "133".
Definition xE2 : ascii := "226".
Definition x80 : ascii := "128".
Definition xA8 : ascii := "168".
Definition xA9 : ascii := "169".

Definition one_byte_break (c : ascii) : bool :=
  Ascii.eqb c LF || Ascii.eqb c VT || Ascii.eqb c FF
  || Ascii.eqb c FS || Ascii.eqb c GS || Ascii.eqb c RS.

(** [cur] is the text of the line being read. A line is emitted at each
    boundary; the text after the last boundary is emitted only when it is
    not empty. *)
Fixpoint splitlines_go (cur s : string) {struct s} : list string :=
  match s with
  | EmptyString =>
      match cur with
      | EmptyString => []
      | _ => [cur]
      end
  | String c s1 =>
      if Ascii.eqb c CR then
        match s1 with
        | String c2 s2 =>
            if Ascii.eqb c2 LF
            then cur :: splitlines_go EmptyString s2
            else cur :: splitlines_go EmptyString s1
        | EmptyString => [cur]
        end
      else if one_byte_break c then cur :: splitlines_go EmptyString s1
      else if Ascii.eqb c xC2 then
        match s1 with
        | String c2 s2 =>
            if Ascii.eqb c2 x85
            then cur :: splitlines_go EmptyString s2
            else splitlines_go (cur ++ String c EmptyString)%string s1
        | EmptyString => splitlines_go (cur ++ String c EmptyString)%string s1
        end
      else if Ascii.eqb c xE2 then
        match s1 with
        | String c2 (String c3 s3) =>
            if Ascii.eqb c2 x80 && (Ascii.eqb c3 xA8 || Ascii.eqb c3 xA9)
            then cur :: splitlines_go EmptyString s3
            else splitlines_go (cur ++ String c EmptyString)%string s1
        | _ => splitlines_go (cur ++ String c EmptyString)%string s1
        end
      else splitlines_go (cur ++ String c EmptyString)%string s1
  end.

Definition splitlines (s : string) : list string :=
  splitlines_go EmptyString s.

(** *** [sorted] on a list of [str]: a stable merge sort under [<=]. *)
Module StrOrder <: TotalLeBool.

Definition t := string.

Definition leb := String.leb.

Definition leb_total
  : forall a1 a2, leb a1 a2 = true \/ leb a2 a1 = true := String.leb_total.

End StrOrder.

Module StrSort := Sort StrOrder.

Definition sorted (l : list string) : list string := StrSort.sort l.

End Py.

(** ** Records of the review service *)

Module LP.

Record Person := { name : string }.

Record Comment := { vote : string }.

Record Vote := {
  is_pending : bool;
  reviewer : Person;
  comment : Comment
}.

Record GitRepository := { display_name : string }.

(** [source_git_repository] is read with [getattr(mp, ..., None)] and
    tested for truth, so it is [None] when null or absent; every other
    handle is dereferenced unguarded and is carried as present.
    [description] is compared with [None]. *)
Record MergeProposal := {
  registrant : Person;
  description : option string;
  votes : list Vote;
  web_link : string;
  source_git_repository : option GitRepository;
  target_git_repository : GitRepository;
  source_git_path : string;
  target_git_path : string
}.

End LP.

(** ** Summaries *)

(** The dict appended to [mp_content], one field per key. *)
Record Summary := {
  author : string;
  description : string;
  short_description : string;
  reviewers : list string;
  approval_count : nat;
  web : string;
  target_branch : string;
  source_branch : string;
  target_repo : string;
  source_repo : string
}.

Definition _format_git_branch_name (branch_name : string) : string :=
  if Py.startswith branch_name "refs/heads/"
  then Py.slice_from (String.length "refs/heads/") branch_name
  else branch_name.

(** One turn of [for vote in mp.votes] on the pair
    [(review_vote_parts, approval_count)]. *)
Definition tally_vote (acc : list string * nat) (v : LP.Vote)
    : list string * nat :=
  let '(review_vote_parts, approval_count) := acc in
  if negb (LP.is_pending v) then
    (review_vote_parts ++ [LP.name (LP.reviewer v)],
     if LP.vote (LP.comment v) =? "Approve"
     then approval_count + 1
     else approval_count)
  else (review_vote_parts, approval_count).

Definition tally_votes (vs : list LP.Vote) : list string * nat :=
  fold_left tally_vote vs ([], 0).

(** The body of the outer loop for a record that passed the
    [source_git_repository] test. *)
Definition summarize_mp (mp : LP.MergeProposal) (source_repo : LP.GitRepository)
    : result Summary :=
  let '(review_vote_parts, approval_count) := tally_votes (LP.votes mp) in
  let target_repo := LP.target_git_repository mp in
  let source_branch := _format_git_branch_name (LP.source_git_path mp) in
  let target_branch := _format_git_branch_name (LP.target_git_path mp) in
  let description :=
    match LP.description mp with
    | None => ""
    | Some d => d
    end in
  short_description <-
    match LP.description mp with
    | None => Ok ""
    | Some d => Py.getitem (Py.splitlines d) 0
    end ;;
  Ok {| author := LP.name (LP.registrant mp);
        description := description;
        short_description := short_description;
        reviewers := Py.sorted review_vote_parts;
        approval_count := approval_count;
        web := LP.web_link mp;
        target_branch := target_branch;
        source_branch := source_branch;
        target_repo := LP.display_name target_repo;
        source_repo := LP.display_name source_repo |}.

(** [for mp in mps] with [mp_content] threaded through. *)
Fixpoint summarize_loop (mps : list LP.MergeProposal) (mp_content : list Summary)
    : result (list Summary) :=
  match mps with
  | [] => Ok mp_content
  | mp :: rest =>
      match LP.source_git_repository mp with
      | Some source_repo =>
          s <- summarize_mp mp source_repo ;;
          summarize_loop rest (mp_content ++ [s])
      | None => summarize_loop rest mp_content
      end
  end.

Definition summarize_mps (mps : list LP.MergeProposal) : result (list Summary) :=
  summarize_loop mps [].

Definition build_commit_msg (author reviewers source_branch target_branch
    commit_message mp_web_link : string) : result string :=
  Py.format
    ("Merge {} into {} [a={}] [r={}]" ++ String Py.LF (String Py.LF "{}")
     ++ String Py.LF (String Py.LF "MP: {}"))%string
    [source_branch; target_branch; author; reviewers; commit_message;
     mp_web_link]
    [].


(** ** The selection wizard *)

(** The label under which a summary is offered:
    the template of [mp_options] applied to [**mp] and [str_reviewers].
    The list-valued key [reviewers] is passed along by [**mp] too, but the
    template holds no field of that name, so it is never rendered. *)
Definition mp_label_template : string :=
  ("{source_repo}/{source_branch}"
   ++ String Py.LF "->{target_repo}/{target_branch}"
   ++ String Py.LF "    {short_description}"
   ++ String Py.LF "    {approval_count} approvals ({str_reviewers})"
   ++ String Py.LF "    {web}")%string.

Definition mp_label (mp : Summary) : result string :=
  Py.format mp_label_template []
    [("author", author mp);
     ("description", description mp);
     ("short_description", short_description mp);
     ("approval_count", Py.str_of_nat (approval_count mp));
     ("web", web mp);
     ("target_branch", target_branch mp);
     ("source_branch", source_branch mp);
     ("target_repo", target_repo mp);
     ("source_repo", source_repo mp);
     ("str_reviewers", Py.join "," (reviewers mp))].

(** A [dict] with [str] keys, in insertion order: [d[k] = v] replaces the
    value of a key already present where it stands, and appends a new key. *)
Definition dict (V : Type) : Type := list (string * V).

Fixpoint dict_set {V : Type} (k : string) (v : V) (d : dict V) : dict V :=
  match d with
  | [] => [(k, v)]
  | (k', v') :: d' =>
      if k' =? k then (k', v) :: d' else (k', v') :: dict_set k v d'
  end.

(** The dict comprehension [{label(mp): mp for mp in mp_summaries}]. *)
Fixpoint mp_options_loop (mp_summaries : list Summary) (d : dict Summary)
    : result (dict Summary) :=
  match mp_summaries with
  | [] => Ok d
  | mp :: rest =>
      label <- mp_label mp ;;
      mp_options_loop rest (dict_set label mp d)
  end.

Definition mp_options (mp_summaries : list Summary) : result (dict Summary) :=
  mp_options_loop mp_summaries [].

(** What the program asks of git, in the order asked. *)
Inductive GitOp : Type :=
| Checkout (branch : string)
| Execute (argv : list string).

(** The click handlers with the values they were connected with
    ([user_args], the per-button argument, and for
    [source_branch_chosen] the [local_branches] of its enclosing call). *)
Inductive Callback : Type :=
| mp_chosen_cb (source_branch target_branch : option string)
    (chosen_mp : Summary)
| source_branch_chosen_cb (local_branches : list string) (chosen_mp : Summary)
    (target_branch : option string) (chosen_source_branch : string)
| target_branch_chosen_cb (chosen_mp : Summary) (source_branch : string)
    (target_branch : string)
| urwid_exit_program_cb.

Inductive Widget : Type :=
| Text (markup : string)
| Divider
| Button (label : string) (on_click : Callback).

(** A [SimpleFocusListWalker] shown in a [ListBox]: its widgets and the
    position in focus, which is 0 until [set_focus] is called. *)
Record ListBox : Type := {
  contents : list Widget;
  focus_position : nat
}.

Definition listwalker_append (b : ListBox) (w : Widget) : ListBox :=
  {| contents := contents b ++ [w]; focus_position := focus_position b |}.

Definition set_focus (b : ListBox) (position : nat) : ListBox :=
  {| contents := contents b; focus_position := position |}.

Definition new_listwalker : ListBox :=
  {| contents := []; focus_position := 0 |}.

Inductive Status : Type :=
| Running
| Exited
| Crashed (e : exn).

(** The state the callbacks act on: [loop.widget], the requests made to git
    so far, what was printed, and whether the main loop still runs. *)
Record World : Type := {
  widget : ListBox;
  git_log : list GitOp;
  stdout : list string;
  status : Status
}.

(** The local clone: the names of [repo.branches], the name of
    [repo.active_branch] read at start-up, and whether a checkout or a git
    command succeeds. *)
Record Repo : Type := {
  branches : list string;
  active_branch : string;
  checkout_ok : string -> bool;
  execute_ok : list string -> bool
}.

(** Handlers run in a state-and-exception monad over [World]. *)
Definition M (A : Type) : Type := World -> result A * World.

Definition ret {A : Type} (a : A) : M A := fun w => (Ok a, w).

Definition raise {A : Type} (e : exn) : M A := fun w => (Raise e, w).

Definition bindM {A B : Type} (m : M A) (k : A -> M B) : M B :=
  fun w =>
    match m w with
    | (Ok a, w') => k a w'
    | (Raise e, w') => (Raise e, w')
    end.

Definition lift {A : Type} (r : result A) : M A := fun w => (r, w).

Notation "x <~ m ;; k" := (bindM m (fun x => k))
  (at level 61, m at next level, right associativity).
Notation "m ;;; k" := (bindM m (fun _ => k))
  (at level 61, right associativity).

Definition set_widget (b : ListBox) : M unit :=
  fun w => (Ok tt, {| widget := b; git_log := git_log w;
                      stdout := stdout w; status := status w |}).

Definition request (op : GitOp) : M unit :=
  fun w => (Ok tt, {| widget := widget w; git_log := git_log w ++ [op];
                      stdout := stdout w; status := status w |}).

Section Wizard.

Variable repo : Repo.

(** [repo.branches[name].checkout()] *)
Definition checkout (name : string) : M unit :=
  if existsb (String.eqb name) (branches repo) then
    request (Checkout name) ;;;
    if checkout_ok repo name then ret tt else raise GitCommandError
  else raise IndexError.

(** [local_git.execute(argv)] *)
Definition execute (argv : list string) : M unit :=
  request (Execute argv) ;;;
  if execute_ok repo argv then ret tt else raise GitCommandError.

Definition merge_summary_template : string :=
  ("{source_branch} has been merged in to {target_branch} "
   ++ String Py.LF "Changes have _NOT_ been pushed")%string.

Definition target_branch_chosen (chosen_mp : Summary) (source_branch : string)
    (target_branch : string) : M unit :=
  if negb (target_branch =? source_branch) then
    commit_message <~ lift (build_commit_msg
        (author chosen_mp)
        (Py.join "," (reviewers chosen_mp))
        source_branch
        target_branch
        (description chosen_mp)
        (web chosen_mp)) ;;
    checkout target_branch ;;;
    execute ["git"; "merge"; "--no-ff"; source_branch; "-m"; commit_message] ;;;
    merge_summary <~ lift (Py.format merge_summary_template []
        [("source_branch", source_branch);
         ("target_branch", target_branch)]) ;;
    set_widget
      (listwalker_append
        (listwalker_append
          (listwalker_append
            (listwalker_append
              (listwalker_append new_listwalker (Text "Merge Summary"))
              Divider)
            (Text merge_summary))
          Divider)
        (Button "Exit" urwid_exit_program_cb))
  else ret tt.

(** One turn of [for local_branch in local_branches] in a branch step, on
    [(focus_counter, focus, listwalker)]; [on_click] is the handler the
    button is connected to and [mp_branch] the branch the proposal
    records for this step. *)
Definition branch_turn (on_click : string -> Callback) (mp_branch : string)
    (st : nat * option nat * ListBox) (local_branch : string)
    : nat * option nat * ListBox :=
  let '(focus_counter, focus, listwalker) := st in
  let focus_counter := focus_counter + 1 in
  let listwalker :=
    listwalker_append listwalker (Button local_branch (on_click local_branch)) in
  let focus :=
    if local_branch =? mp_branch then Some focus_counter else focus in
  let focus :=
    if (local_branch =? active_branch repo)
       && match focus with None => true | Some _ => false end
    then Some focus_counter
    else focus in
  (focus_counter, focus, listwalker).

Definition branch_box (title : string) (on_click : string -> Callback)
    (mp_branch : string) (local_branches : list string) : ListBox :=
  let listwalker :=
    listwalker_append (listwalker_append new_listwalker (Text title)) Divider in
  let '(_, focus, listwalker) :=
    fold_left (branch_turn on_click mp_branch) local_branches
      (1, None, listwalker) in
  if Py.truthy_int focus
  then set_focus listwalker (match focus with Some n => n | None => 0 end)
  else listwalker.

Definition target_branch_box (local_branches : list string)
    (chosen_mp : Summary) (chosen_source_branch : string) : ListBox :=
  branch_box "Target Branch"
    (target_branch_chosen_cb chosen_mp chosen_source_branch)
    (target_branch chosen_mp) local_branches.

(** The value of a flag on the branch where it tested true. *)
Definition flag_value (flag : option string) : string :=
  match flag with
  | Some s => s
  | None => ""
  end.

Definition source_branch_chosen (local_branches : list string)
    (chosen_mp : Summary) (target_branch : option string)
    (chosen_source_branch : string) : M unit :=
  if negb (Py.truthy_str target_branch) then
    set_widget (target_branch_box local_branches chosen_mp chosen_source_branch)
  else
    target_branch_chosen chosen_mp chosen_source_branch
      (flag_value target_branch).

Definition source_branch_box (local_branches : list string)
    (chosen_mp : Summary) (target_branch : option string) : ListBox :=
  branch_box "Source Branch"
    (source_branch_chosen_cb local_branches chosen_mp target_branch)
    (source_branch chosen_mp) local_branches.

Definition mp_chosen (source_branch target_branch : option string)
    (chosen_mp : Summary) : M unit :=
  let local_branches := branches repo in
  if negb (Py.truthy_str source_branch) then
    set_widget (source_branch_box local_branches chosen_mp target_branch)
  else
    source_branch_chosen local_branches chosen_mp target_branch
      (flag_value source_branch).

Definition urwid_exit_program : M unit := raise ExitMainLoop.

Definition urwid_exit_on_q (key : string) : M unit :=
  if (key =? "q") || (key =? "Q") then raise ExitMainLoop else ret tt.

(** Calling a connected handler. *)
Definition call (cb : Callback) : M unit :=
  match cb with
  | mp_chosen_cb source_branch target_branch chosen_mp =>
      mp_chosen source_branch target_branch chosen_mp
  | source_branch_chosen_cb local_branches chosen_mp target_branch chosen =>
      source_branch_chosen local_branches chosen_mp target_branch chosen
  | target_branch_chosen_cb chosen_mp source_branch target_branch =>
      target_branch_chosen chosen_mp source_branch target_branch
  | urwid_exit_program_cb => urwid_exit_program
  end.

(** What the operator does: activates the widget at a position of the
    list shown, or presses a key no widget handles. *)
Inductive Event : Type :=
| Click (position : nat)
| Key (key : string).

(** An exception leaving a handler ends the main loop: [ExitMainLoop] is
    the regular way out, any other exception ends the program with it. *)
Definition stopped (e : exn) : Status :=
  match e with
  | ExitMainLoop => Exited
  | _ => Crashed e
  end.

Definition settle (m : M unit) (w : World) : World :=
  match m w with
  | (Ok _, w') => w'
  | (Raise e, w') =>
      {| widget := widget w'; git_log := git_log w';
         stdout := stdout w'; status := stopped e |}
  end.

Definition step (w : World) (ev : Event) : World :=
  match status w with
  | Running =>
      match ev with
      | Click position =>
          match nth_error (contents (widget w)) position with
          | Some (Button _ on_click) => settle (call on_click) w
          | _ => w
          end
      | Key key => settle (urwid_exit_on_q key) w
      end
  | _ => w
  end.

Definition run (w : World) (evs : list Event) : World :=
  fold_left step evs w.

(** The list of the proposal step: one button per item of [mp_options]. *)
Definition proposal_box (source_branch target_branch : option string)
    (options : dict Summary) : ListBox :=
  fold_left
    (fun listwalker '(mp_summary, mp) =>
       listwalker_append listwalker
         (Button mp_summary (mp_chosen_cb source_branch target_branch mp)))
    options
    (listwalker_append
      (listwalker_append new_listwalker (Text "Merge Proposal to Merge"))
      Divider).

Definition no_proposals_message : string :=
  "You have no Merge Proposals in either 'Needs review' or 'Approved' state".

Definition halted (st : Status) (out : list string) : World :=
  {| widget := new_listwalker; git_log := []; stdout := out; status := st |}.

(** [lpshipit] from the point where the proposals [mps] of the owner have
    been fetched, against the events of the operator. *)
Definition lpshipit (source_branch target_branch : option string)
    (mps : list LP.MergeProposal) (evs : list Event) : World :=
  match summarize_mps mps with
  | Raise e => halted (Crashed e) []
  | Ok mp_summaries =>
      if Py.truthy_list mp_summaries then
        match mp_options mp_summaries with
        | Raise e => halted (Crashed e) []
        | Ok options =>
            run {| widget := proposal_box source_branch target_branch options;
                   git_log := []; stdout := []; status := Running |} evs
        end
      else halted Exited [no_proposals_message]
  end.

End Wizard.

(** ** Vocabulary of the statements *)

(** A record is kept when its source repository handle is not null. *)
Definition retained (mp : LP.MergeProposal) : bool :=
  match LP.source_git_repository mp with
  | Some _ => true
  | None => false
  end.

(** A vote is completed when it is not pending. *)
Definition completed (v : LP.Vote) : bool := negb (LP.is_pending v).

Definition approving (v : LP.Vote) : bool := LP.vote (LP.comment v) =? "Approve".

Definition reviewer_name (v : LP.Vote) : string := LP.name (LP.reviewer v).

Definition count_approvals (vs : list LP.Vote) : nat :=
  List.length (filter (fun v => completed v && approving v) vs).

(** [summarized mp s]: the loop body turned the kept record [mp] into [s]. *)
Definition summarized (mp : LP.MergeProposal) (s : Summary) : Prop :=
  exists source_repo,
    LP.source_git_repository mp = Some source_repo
    /\ summarize_mp mp source_repo = Ok s.

(** Ascending order of [str] values. *)
Definition str_le (a b : string) : Prop := String.leb a b = true.

(** The line boundaries of [str.splitlines], as strings. *)
Definition linebreaks : list string :=
  [String Py.LF ""; String Py.CR (String Py.LF ""); String Py.CR "";
   String Py.VT ""; String Py.FF ""; String Py.FS ""; String Py.GS "";
   String Py.RS ""; String Py.xC2 (String Py.x85 "");
   String Py.xE2 (String Py.x80 (String Py.xA8 ""));
   String Py.xE2 (String Py.x80 (String Py.xA9 ""))].

(** [starts b s]: [s] begins with [b]. *)
Fixpoint starts (b s : string) {struct b} : bool :=
  match b with
  | EmptyString => true
  | String x b' =>
      match s with
      | EmptyString => false
      | String y s' => Ascii.eqb x y && starts b' s'
      end
  end.

(** [has_break s]: a line boundary starts somewhere in [s]. *)
Fixpoint has_break (s : string) : bool :=
  match s with
  | EmptyString => false
  | String _ s' => existsb (fun b => starts b s) linebreaks || has_break s'
  end.

(** [clean_start s]: [s] does not begin with a byte that only ends a
    boundary of several bytes. *)
Definition clean_start (s : string) : bool :=
  match s with
  | EmptyString => true
  | String c _ =>
      negb (Ascii.eqb c Py.x85 || Ascii.eqb c Py.x80
            || Ascii.eqb c Py.xA8 || Ascii.eqb c Py.xA9)
  end.

(** The label of a summary, written out. *)
Definition label_of (mp : Summary) : string :=
  (source_repo mp ++ "/" ++ source_branch mp
   ++ String Py.LF "->" ++ target_repo mp ++ "/" ++ target_branch mp
   ++ String Py.LF "    " ++ short_description mp
   ++ String Py.LF "    " ++ Py.str_of_nat (approval_count mp)
   ++ " approvals (" ++ Py.join "," (reviewers mp) ++ ")"
   ++ String Py.LF "    " ++ web mp)%string.

Definition is_button (w : Widget) : bool :=
  match w with
  | Button _ _ => true
  | _ => false
  end.

(** The entries an operator can select in a list. *)
Definition selectable (b : ListBox) : list Widget := filter is_button (contents b).

(** The comprehension, with the labels written out. *)
Definition options_of (mp_summaries : list Summary) (d : dict Summary)
    : dict Summary :=
  fold_left (fun d mp => dict_set (label_of mp) mp d) mp_summaries d.

(** What holds of [(focus_counter, focus, listwalker)] in a branch step
    once the branches [seen] have been turned into buttons. *)
Definition turned (repo : Repo) (title : string)
    (on_click : string -> Callback) (mp_branch : string)
    (seen : list string) (st : nat * option nat * ListBox) : Prop :=
  let button_of := fun b => Button b (on_click b) in
  let '(focus_counter, focus, listwalker) := st in
  focus_counter = 1 + List.length seen
  /\ contents listwalker = Text title :: Divider :: map button_of seen
  /\ focus_position listwalker = 0
  /\ (forall n, focus = Some n ->
        2 <= n
        /\ exists b, nth_error (contents listwalker) n = Some (button_of b)
             /\ (In mp_branch seen -> b = mp_branch)
             /\ (~ In mp_branch seen -> b = active_branch repo))
  /\ (focus = None -> ~ In mp_branch seen /\ ~ In (active_branch repo) seen).

(** A flag as the bypass tests see it. *)
Definition norm_flag (flag : option string) : option string :=
  if Py.truthy_str flag then flag else None.

Definition norm_cb (cb : Callback) : Callback :=
  match cb with
  | mp_chosen_cb sb tb mp => mp_chosen_cb (norm_flag sb) (norm_flag tb) mp
  | source_branch_chosen_cb lb mp tb s =>
      source_branch_chosen_cb lb mp (norm_flag tb) s
  | _ => cb
  end.

Definition norm_widget (w : Widget) : Widget :=
  match w with
  | Button l cb => Button l (norm_cb cb)
  | _ => w
  end.

Definition norm_box (b : ListBox) : ListBox :=
  {| contents := map norm_widget (contents b);
     focus_position := focus_position b |}.

Definition norm_world (w : World) : World :=
  {| widget := norm_box (widget w); git_log := git_log w;
     stdout := stdout w; status := status w |}.

(** What the operator sees of a widget. *)
Inductive Face : Type :=
| FText (markup : string)
| FDivider
| FButton (label : string).

Definition face (w : Widget) : Face :=
  match w with
  | Text s => FText s
  | Divider => FDivider
  | Button l _ => FButton l
  end.

(** What can be observed of a run: the list on screen and its focus, the
    requests made to git, the output and the status. *)
Definition shown (w : World)
    : list Face * nat * list GitOp * list string * Status :=
  (map face (contents (widget w)), focus_position (widget w),
   git_log w, stdout w, status w).

(** [m'] does on a normalised world what [m] does on the world. *)
Definition commute (m m' : M unit) : Prop :=
  forall w, m' (norm_world w) = (fst (m w), norm_world (snd (m w))).

(** The requests a run may have made: none, or a checkout of a target
    followed (unless the checkout failed) by the merge of a source that
    differs from it. *)
Definition guarded (log : list GitOp) : Prop :=
  log = []
  \/ exists s t,
       s <> t
       /\ (log = [Checkout t]
           \/ exists m,
                log = [Checkout t;
                       Execute ["git"; "merge"; "--no-ff"; s; "-m"; m]]).

(** Nothing on screen leads to a handler other than the exit. *)
Definition finished (w : World) : Prop :=
  status w <> Running
  \/ forall position l cb,
       nth_error (contents (widget w)) position = Some (Button l cb) ->
       cb = urwid_exit_program_cb.

Definition merge_guard (w : World) : Prop :=
  git_log w = [] \/ (guarded (git_log w) /\ finished w).

(** Every button leads to [mp_chosen] with both flags set to [b]. *)
Definition only_proposals (b : string) (box : ListBox) : Prop :=
  forall position l cb,
    nth_error (contents box) position = Some (Button l cb) ->
    exists mp, cb = mp_chosen_cb (Some b) (Some b) mp.

(** A record with another list of votes. *)
Definition set_votes (mp : LP.MergeProposal) (vs : list LP.Vote)
    : LP.MergeProposal :=
  {| LP.registrant := LP.registrant mp;
     LP.description := LP.description mp;
     LP.votes := vs;
     LP.web_link := LP.web_link mp;
     LP.source_git_repository := LP.source_git_repository mp;
     LP.target_git_repository := LP.target_git_repository mp;
     LP.source_git_path := LP.source_git_path mp;
     LP.target_git_path := LP.target_git_path mp |}.

(** The last summary of a list that has the label [l]. *)
Definition last_labelled (l : string) (mp_summaries : list Summary)
    : option Summary :=
  find (fun mp => label_of mp =? l) (rev mp_summaries).

(** The merge-summary list shown after a merge. *)
Definition merge_summary_box (source_branch target_branch : string) : ListBox :=
  {| contents :=
       [Text "Merge Summary"; Divider;
        Text (source_branch ++ " has been merged in to " ++ target_branch
              ++ " " ++ String Py.LF "Changes have _NOT_ been pushed")%string;
        Divider; Button "Exit" urwid_exit_program_cb];
     focus_position := 0 |}.

(** The text handed to [git merge -m]. *)
Definition commit_text (mp : Summary) (source_branch target_branch : string)
    : string :=
  ("Merge " ++ source_branch ++ " into " ++ target_branch
   ++ " [a=" ++ author mp ++ "] [r=" ++ Py.join "," (reviewers mp) ++ "]"
   ++ String Py.LF (String Py.LF "") ++ description mp
   ++ String Py.LF (String Py.LF "") ++ "MP: " ++ web mp)%string.

(** The git command of the merge. *)
Definition merge_command (mp : Summary) (s t : string) : list string :=
  ["git"; "merge"; "--no-ff"; s; "-m"; commit_text mp s t].

(** A world with a status, a request log and a screen put in place. *)
Definition with_log (w : World) (log : list GitOp) : World :=
  {| widget := widget w; git_log := log; stdout := stdout w;
     status := status w |}.

Definition with_status (w : World) (st : Status) : World :=
  {| widget := widget w; git_log := git_log w; stdout := stdout w;
     status := st |}.

Definition with_widget (w : World) (b : ListBox) : World :=
  {| widget := b; git_log := git_log w; stdout := stdout w;
     status := status w |}.

(** ** Sample records *)

Definition vote_of (pending : bool) (who verdict : string) : LP.Vote :=
  {| LP.is_pending := pending;
     LP.reviewer := {| LP.name := who |};
     LP.comment := {| LP.vote := verdict |} |}.

Definition proposal_of (d : option string) (src : option LP.GitRepository)
    (vs : list LP.Vote) : LP.MergeProposal :=
  {| LP.registrant := {| LP.name := "alice" |};
     LP.description := d;
     LP.votes := vs;
     LP.web_link := "https://example/mp/1";
     LP.source_git_repository := src;
     LP.target_git_repository := {| LP.display_name := "upstream" |};
     LP.source_git_path := "refs/heads/feature-x";
     LP.target_git_path := "refs/heads/main" |}.

Definition fork : option LP.GitRepository := Some {| LP.display_name := "fork" |}.

Definition sample_votes : list LP.Vote :=
  [vote_of false "carol" "Approve"; vote_of true "dave" "Approve";
   vote_of false "bob" "approve"; vote_of false "bob" "Approve"].

Definition sample_repo : Repo :=
  {| branches := ["main"; "feature-x"; "wip"];
     active_branch := "wip";
     checkout_ok := fun _ => true;
     execute_ok := fun _ => true |}.

Definition sample_summary (who : string) : Summary :=
  {| author := who;
     description := "Fixes bug";
     short_description := "Fixes bug";
     reviewers := ["bob"];
     approval_count := 1;
     web := "https://example/mp/1";
     target_branch := "main";
     source_branch := "feature-x";
     target_repo := "upstream";
     source_repo := "fork" |}.
Example build_commit_msg_spec_example :
  build_commit_msg "alice" "bob,carol" "feature-x" "main" "Fixes bug"
    "https://example/mp/1"
  = Ok ("Merge feature-x into main [a=alice] [r=bob,carol]"
        ++ String Py.LF (String Py.LF "Fixes bug")
        ++ String Py.LF (String Py.LF "MP: https://example/mp/1"))%string.
Proof. reflexivity. Qed.

Example splitlines_examples :
  Py.splitlines "" = []
  /\ Py.splitlines "abc" = ["abc"]
  /\ Py.splitlines ("a" ++ String Py.LF "b")%string = ["a"; "b"]
  /\ Py.splitlines ("a" ++ String Py.CR (String Py.LF "b"))%string = ["a"; "b"]
  /\ Py.splitlines (String Py.LF (String Py.LF "b")) = [""; ""; "b"]
  /\ Py.splitlines ("a" ++ String Py.LF "")%string = ["a"].
Proof. repeat split; reflexivity. Qed.

Example sorted_example :
  Py.sorted ["carol"; "bob"; "alice"; "bob"] = ["alice"; "bob"; "bob"; "carol"].
Proof. reflexivity. Qed.

Example branch_name_examples :
  _format_git_branch_name "refs/heads/feature-x" = "feature-x"
  /\ _format_git_branch_name "feature-x" = "feature-x"
  /\ _format_git_branch_name "refs/tags/v1" = "refs/tags/v1".
Proof. repeat split; reflexivity. Qed.

Example merge_run_example :
  let w := lpshipit sample_repo (Some "feature-x") (Some "main")
             [proposal_of (Some "Fixes bug") fork sample_votes] [Click 2] in
  git_log w
  = [Checkout "main";
     Execute ["git"; "merge"; "--no-ff"; "feature-x"; "-m";
              ("Merge feature-x into main [a=alice] [r=bob,bob,carol]"
               ++ String Py.LF (String Py.LF "Fixes bug")
               ++ String Py.LF (String Py.LF "MP: https://example/mp/1"))%string]]
  /\ shown w
     = ([FText "Merge Summary"; FDivider;
         FText ("feature-x has been merged in to main "
                ++ String Py.LF "Changes have _NOT_ been pushed")%string;
         FDivider; FButton "Exit"],
        0, git_log w, [], Running).
Proof. split; reflexivity. Qed.

Example interactive_run_example :
  let w := lpshipit sample_repo None None
             [proposal_of (Some "Fixes bug") fork sample_votes]
             [Click 2; Click 3; Click 3; Click 2; Click 4] in
  git_log w
  = [Checkout "main";
     Execute ["git"; "merge"; "--no-ff"; "feature-x"; "-m";
              ("Merge feature-x into main [a=alice] [r=bob,bob,carol]"
               ++ String Py.LF (String Py.LF "Fixes bug")
               ++ String Py.LF (String Py.LF "MP: https://example/mp/1"))%string]]
  /\ status w = Exited.
Proof. split; reflexivity. Qed.

Example no_proposals_example :
  shown (lpshipit sample_repo None None [proposal_of None None []] [Click 2])
  = ([], 0, [], [no_proposals_message], Exited).
Proof. reflexivity. Qed.

(** ** Strings *)

Lemma substring_whole (s : string) : String.substring 0 (String.length s) s = s.
Proof. induction s as [|c s IH]; simpl; [reflexivity | now rewrite IH]. Qed.

Lemma append_nil_r (s : string) : (s ++ "")%string = s.
Proof. induction s as [|c s IH]; simpl; [reflexivity | now rewrite IH]. Qed.

Lemma append_assoc (a b c : string) :
  ((a ++ b) ++ c)%string = (a ++ (b ++ c))%string.
Proof. induction a as [|x a IH]; simpl; [reflexivity | now rewrite IH]. Qed.

Lemma prefix_split (p s : string) :
  String.prefix p s = true -> exists rest, s = (p ++ rest)%string.
Proof.
  revert s; induction p as [|c p IH]; intros s H.
  - exists s; reflexivity.
  - destruct s as [|c' s]; simpl in H; [discriminate|].
    destruct (ascii_dec c c') as [->|]; [|discriminate].
    destruct (IH s H) as [rest ->]. exists rest; reflexivity.
Qed.

(** [<=] on [str] is transitive. *)
Lemma str_le_trans (a b c : string) : str_le a b -> str_le b c -> str_le a c.
Proof.
  unfold str_le, String.leb. revert b c.
  induction a as [|x a IH]; intros [|y b] [|z c]; simpl; try easy.
  unfold Ascii.compare.
  destruct (N.compare_spec (N_of_ascii x) (N_of_ascii y)) as [E1|L1|G1];
    destruct (N.compare_spec (N_of_ascii y) (N_of_ascii z)) as [E2|L2|G2];
    destruct (N.compare_spec (N_of_ascii x) (N_of_ascii z)) as [E3|L3|G3];
    try easy; try lia.
  apply IH.
Qed.

(** ** The commit message *)

(** C1: for all six input strings [build_commit_msg] returns the template
    "Merge {} into {} [a={}] [r={}]\n\n{}\n\nMP: {}" with source branch,
    target branch, author, reviewers, description and web link put in
    unchanged; with an empty description the two blank lines enclose an
    empty line. *)
Theorem build_commit_msg_exact :
  forall author reviewers source_branch target_branch description web_link,
    build_commit_msg author reviewers source_branch target_branch
      description web_link
    = Ok ("Merge " ++ source_branch ++ " into " ++ target_branch
          ++ " [a=" ++ author ++ "] [r=" ++ reviewers ++ "]"
          ++ String Py.LF (String Py.LF "") ++ description
          ++ String Py.LF (String Py.LF "") ++ "MP: " ++ web_link)%string
    /\ build_commit_msg author reviewers source_branch target_branch
         "" web_link
       = Ok ("Merge " ++ source_branch ++ " into " ++ target_branch
             ++ " [a=" ++ author ++ "] [r=" ++ reviewers ++ "]"
             ++ String Py.LF (String Py.LF (String Py.LF (String Py.LF "")))
             ++ "MP: " ++ web_link)%string.
Proof.
  intros; split; unfold build_commit_msg, Py.format; cbn;
    now rewrite append_nil_r.
Qed.

(** ** Branch names *)

(** C7: [_format_git_branch_name] returns the remainder of a string that
    begins with "refs/heads/", and returns every other string unchanged. *)
Theorem format_git_branch_name_prefix (s : string) :
  (forall rest, s = ("refs/heads/" ++ rest)%string ->
     _format_git_branch_name s = rest)
  /\ ((forall rest, s <> ("refs/heads/" ++ rest)%string) ->
     _format_git_branch_name s = s).
Proof.
  split.
  - intros rest ->. unfold _format_git_branch_name, Py.startswith, Py.slice_from.
    simpl. rewrite Nat.sub_0_r.
    replace (String.prefix "" rest) with true by (now destruct rest).
    apply substring_whole.
  - intros H. unfold _format_git_branch_name, Py.startswith.
    destruct (String.prefix "refs/heads/" s) eqn:E; [|reflexivity].
    destruct (prefix_split _ _ E) as [rest ->]. now destruct (H rest).
Qed.

Lemma format_git_branch_name_prefix_witness :
  _format_git_branch_name "refs/heads/feature-x" = "feature-x"
  /\ _format_git_branch_name "refs/tags/v1" = "refs/tags/v1".
Proof.
  split.
  - apply (proj1 (format_git_branch_name_prefix "refs/heads/feature-x")).
    reflexivity.
  - apply (proj2 (format_git_branch_name_prefix "refs/tags/v1")).
    intros rest H; discriminate H.
Defined.

(** ** Lines of a description *)

Lemma append_char_not_empty (cur : string) (c : ascii) :
  (cur ++ String c "")%string <> "".
Proof. destruct cur; discriminate. Qed.

(** Only the empty string has no line at all. *)
Lemma splitlines_go_nil (s : string) :
  forall cur, Py.splitlines_go cur s = [] -> s = "" /\ cur = "".
Proof.
  induction s as [|c s IH]; intros cur H; simpl in H.
  - destruct cur; [split; reflexivity | discriminate].
  - exfalso.
    destruct (Ascii.eqb c Py.CR).
    { destruct s as [|c2 s2]; [discriminate|].
      destruct (Ascii.eqb c2 Py.LF); discriminate. }
    destruct (Py.one_byte_break c); [discriminate|].
    assert (K : Py.splitlines_go (cur ++ String c "") s <> []).
    { intros K. apply IH in K. now apply (append_char_not_empty cur c). }
    destruct (Ascii.eqb c Py.xC2).
    { destruct s as [|c2 s2]; [now apply K|].
      destruct (Ascii.eqb c2 Py.x85); [discriminate | now apply K]. }
    destruct (Ascii.eqb c Py.xE2); [|now apply K].
    destruct s as [|c2 [|c3 s3]]; try now apply K.
    destruct (Ascii.eqb c2 Py.x80 && (Ascii.eqb c3 Py.xA8 || Ascii.eqb c3 Py.xA9));
      [discriminate | now apply K].
Qed.

Lemma splitlines_nonempty (d : string) :
  d <> "" -> exists line rest, Py.splitlines d = line :: rest.
Proof.
  intros Hd. destruct (Py.splitlines d) as [|line rest] eqn:E.
  - apply splitlines_go_nil in E. now destruct Hd.
  - now exists line, rest.
Qed.

(** ** The first line of a description *)

Lemma existsb_false_In {A : Type} (f : A -> bool) (l : list A) :
  existsb f l = false -> forall x, In x l -> f x = false.
Proof.
  intros H x Hx. destruct (f x) eqn:E; [|reflexivity].
  rewrite <- H. symmetry. apply existsb_exists. now exists x.
Qed.

Ltac in_linebreaks := unfold linebreaks; simpl; tauto.

(** Uses a boundary that would start at the head to close the goal. *)
Ltac boundary_at_head Hb brk :=
  exfalso;
  let K := fresh "K" in
  assert (K : In brk linebreaks) by in_linebreaks;
  apply Hb in K; vm_compute in K; discriminate K.

(** A byte at which no boundary starts is added to the line being read. *)
Lemma splitlines_go_head (cur : string) (c : ascii) (pre tail : string) :
  existsb (fun b => starts b (String c pre)) linebreaks = false ->
  clean_start tail = true ->
  Py.splitlines_go cur (String c (pre ++ tail))
  = Py.splitlines_go (cur ++ String c "") (pre ++ tail).
Proof.
  intros H Ht. pose proof (existsb_false_In _ _ H) as Hb. clear H.
  cbn [Py.splitlines_go].
  destruct (Ascii.eqb_spec c Py.CR) as [->|_].
  { boundary_at_head Hb (String Py.CR ""). }
  destruct (Py.one_byte_break c) eqn:E1.
  { unfold Py.one_byte_break in E1.
    destruct (Ascii.eqb_spec c Py.LF) as [->|_];
      [boundary_at_head Hb (String Py.LF "")|].
    destruct (Ascii.eqb_spec c Py.VT) as [->|_];
      [boundary_at_head Hb (String Py.VT "")|].
    destruct (Ascii.eqb_spec c Py.FF) as [->|_];
      [boundary_at_head Hb (String Py.FF "")|].
    destruct (Ascii.eqb_spec c Py.FS) as [->|_];
      [boundary_at_head Hb (String Py.FS "")|].
    destruct (Ascii.eqb_spec c Py.GS) as [->|_];
      [boundary_at_head Hb (String Py.GS "")|].
    destruct (Ascii.eqb_spec c Py.RS) as [->|_];
      [boundary_at_head Hb (String Py.RS "")|].
    discriminate E1. }
  destruct (Ascii.eqb_spec c Py.xC2) as [->|_].
  { destruct pre as [|c2 pre]; simpl.
    - destruct tail as [|c2 tail]; [reflexivity|].
      simpl in Ht. destruct (Ascii.eqb_spec c2 Py.x85) as [->|_];
        [discriminate Ht | reflexivity].
    - destruct (Ascii.eqb_spec c2 Py.x85) as [->|_]; [|reflexivity].
      exfalso.
      assert (K : In (String Py.xC2 (String Py.x85 "")) linebreaks)
        by in_linebreaks.
      apply Hb in K. simpl in K. discriminate K. }
  destruct (Ascii.eqb_spec c Py.xE2) as [->|_]; [|reflexivity].
  assert (K8 : In (String Py.xE2 (String Py.x80 (String Py.xA8 ""))) linebreaks)
    by in_linebreaks.
  assert (K9 : In (String Py.xE2 (String Py.x80 (String Py.xA9 ""))) linebreaks)
    by in_linebreaks.
  apply Hb in K8, K9. clear Hb.
  destruct pre as [|c2 [|c3 pre]]; simpl.
  - destruct tail as [|c2 [|c3 tail]]; try reflexivity.
    simpl in Ht. destruct (Ascii.eqb_spec c2 Py.x80) as [->|_];
      [discriminate Ht | reflexivity].
  - destruct tail as [|c3 tail]; [reflexivity|].
    simpl in Ht.
    destruct (Ascii.eqb_spec c3 Py.xA8) as [->|_]; [discriminate Ht|].
    destruct (Ascii.eqb_spec c3 Py.xA9) as [->|_]; [discriminate Ht|].
    now rewrite andb_false_r.
  - simpl in K8, K9.
    destruct (Ascii.eqb_spec c2 Py.x80) as [->|_]; [|reflexivity].
    destruct (Ascii.eqb_spec c3 Py.xA8) as [->|_]; [discriminate K8|].
    destruct (Ascii.eqb_spec c3 Py.xA9) as [->|_]; [discriminate K9|].
    reflexivity.
Qed.

(** Text without a boundary is read into the current line. *)
Lemma splitlines_go_prefix (pre : string) :
  forall cur tail,
    has_break pre = false ->
    clean_start tail = true ->
    Py.splitlines_go cur (pre ++ tail) = Py.splitlines_go (cur ++ pre) tail.
Proof.
  induction pre as [|c pre IH]; intros cur tail H Ht.
  - now rewrite append_nil_r.
  - cbn [has_break] in H. apply orb_false_iff in H. destruct H as [H1 H2].
    change (String c pre ++ tail)%string with (String c (pre ++ tail)%string).
    rewrite (splitlines_go_head cur c pre tail H1 Ht), (IH _ _ H2 Ht).
    now rewrite append_assoc.
Qed.

Lemma linebreak_clean_start (brk post : string) :
  In brk linebreaks -> clean_start (brk ++ post) = true.
Proof.
  unfold linebreaks. simpl.
  intros H; repeat (destruct H as [<-|H]; [reflexivity|]); destruct H.
Qed.

(** At a boundary the current line is emitted. *)
Lemma splitlines_go_at_break (cur brk post : string) :
  In brk linebreaks ->
  exists rest, Py.splitlines_go cur (brk ++ post) = cur :: rest.
Proof.
  unfold linebreaks. simpl.
  intros H; repeat (destruct H as [<-|H]; [try (eexists; reflexivity)|]);
    try destruct H.
  simpl. destruct post as [|c post]; [eexists; reflexivity|].
  destruct (Ascii.eqb c Py.LF); eexists; reflexivity.
Qed.

(** A description with text and no boundary is its own single line. *)
Lemma splitlines_single_line (d : string) :
  d <> "" -> has_break d = false -> Py.splitlines d = [d].
Proof.
  intros Hd H. unfold Py.splitlines.
  rewrite <- (append_nil_r d) at 1.
  rewrite (splitlines_go_prefix d "" "" H eq_refl). simpl.
  destruct d; [now destruct Hd | reflexivity].
Qed.

(** The first line is the text before the first boundary. *)
Lemma splitlines_first_line (pre brk post : string) :
  has_break pre = false ->
  In brk linebreaks ->
  exists rest, Py.splitlines (pre ++ brk ++ post) = pre :: rest.
Proof.
  intros H Hb. unfold Py.splitlines.
  rewrite (splitlines_go_prefix pre "" _ H (linebreak_clean_start brk post Hb)).
  simpl. now apply splitlines_go_at_break.
Qed.

(** ** The summarizer *)

Lemma tally_votes_from (vs : list LP.Vote) :
  forall parts n,
    fold_left tally_vote vs (parts, n)
    = (parts ++ map reviewer_name (filter completed vs), n + count_approvals vs).
Proof.
  unfold count_approvals.
  induction vs as [|v vs IH]; intros parts n; simpl.
  - now rewrite app_nil_r, Nat.add_0_r.
  - change (completed v) with (negb (LP.is_pending v)).
    change (approving v) with (LP.vote (LP.comment v) =? "Approve").
    destruct (LP.is_pending v); simpl.
    + apply IH.
    + rewrite IH, <- app_assoc. simpl.
      destruct (LP.vote (LP.comment v) =? "Approve"); simpl; f_equal; lia.
Qed.

Lemma tally_votes_spec (vs : list LP.Vote) :
  tally_votes vs = (map reviewer_name (filter completed vs), count_approvals vs).
Proof. unfold tally_votes. now rewrite tally_votes_from. Qed.

(** Dropping the pending votes changes neither count nor names. *)
Lemma tally_votes_completed_only (vs : list LP.Vote) :
  tally_votes (filter completed vs) = tally_votes vs.
Proof.
  rewrite !tally_votes_spec. unfold count_approvals. f_equal.
  - f_equal. induction vs as [|v vs IH]; simpl; [reflexivity|].
    destruct (completed v) eqn:E; simpl; rewrite ?E; now rewrite IH.
  - f_equal. induction vs as [|v vs IH]; simpl; [reflexivity|].
    destruct (completed v) eqn:E; simpl; rewrite ?E; simpl; now rewrite IH.
Qed.

(** The fields of a summary the loop body returns. *)
Lemma summarize_mp_fields (mp : LP.MergeProposal) (r : LP.GitRepository)
    (s : Summary) :
  summarize_mp mp r = Ok s ->
  author s = LP.name (LP.registrant mp)
  /\ reviewers s = Py.sorted (map reviewer_name (filter completed (LP.votes mp)))
  /\ approval_count s = count_approvals (LP.votes mp)
  /\ web s = LP.web_link mp
  /\ source_branch s = _format_git_branch_name (LP.source_git_path mp)
  /\ target_branch s = _format_git_branch_name (LP.target_git_path mp)
  /\ source_repo s = LP.display_name r
  /\ target_repo s = LP.display_name (LP.target_git_repository mp)
  /\ description s = match LP.description mp with Some d => d | None => "" end
  /\ match LP.description mp with
     | Some d => Py.getitem (Py.splitlines d) 0 = Ok (short_description s)
     | None => short_description s = ""
     end.
Proof.
  unfold summarize_mp. rewrite tally_votes_spec.
  destruct (LP.description mp) as [d|]; simpl.
  - destruct (Py.getitem (Py.splitlines d) 0) as [line|e]; simpl; [|discriminate].
    intros [= <-]; simpl. repeat split; reflexivity.
  - intros [= <-]; simpl. repeat split; reflexivity.
Qed.

(** The body fails exactly on a description that is the empty string. *)
Lemma summarize_mp_returns (mp : LP.MergeProposal) (r : LP.GitRepository) :
  LP.description mp <> Some "" -> exists s, summarize_mp mp r = Ok s.
Proof.
  intros Hd. unfold summarize_mp. rewrite tally_votes_spec.
  destruct (LP.description mp) as [d|]; simpl.
  - destruct (splitlines_nonempty d) as (line & rest & E).
    { intros ->. now apply Hd. }
    unfold Py.getitem. rewrite E. simpl. eauto.
  - eauto.
Qed.

Lemma summarize_mp_empty_description (mp : LP.MergeProposal)
    (r : LP.GitRepository) :
  LP.description mp = Some "" -> summarize_mp mp r = Raise IndexError.
Proof.
  intros Hd. unfold summarize_mp. rewrite tally_votes_spec, Hd. reflexivity.
Qed.

(** The descriptions of a summary in the cases the body returns:
    a null description, a single line, and text with a boundary. *)
Lemma short_description_cases (mp : LP.MergeProposal) (r : LP.GitRepository) :
  (LP.description mp = None ->
   exists s, summarize_mp mp r = Ok s
             /\ description s = "" /\ short_description s = "")
  /\ (forall d,
        LP.description mp = Some d -> d <> "" -> has_break d = false ->
        exists s, summarize_mp mp r = Ok s
                  /\ description s = d /\ short_description s = d)
  /\ (forall pre brk post,
        LP.description mp = Some (pre ++ brk ++ post)%string ->
        has_break pre = false -> In brk linebreaks ->
        exists s, summarize_mp mp r = Ok s
                  /\ description s = (pre ++ brk ++ post)%string
                  /\ short_description s = pre).
Proof.
  unfold summarize_mp. rewrite tally_votes_spec.
  split; [|split].
  - intros ->. simpl. eexists. split; [reflexivity|]. now split.
  - intros d -> Hd H. rewrite (splitlines_single_line d Hd H). simpl.
    eexists. split; [reflexivity|]. now split.
  - intros pre brk post -> H Hb.
    destruct (splitlines_first_line pre brk post H Hb) as [rest ->]. simpl.
    eexists. split; [reflexivity|]. now split.
Qed.

(** What the loop returns is the list it started from followed by the
    summaries of the kept records, in order. *)
Lemma summarize_loop_spec (mps : list LP.MergeProposal) :
  forall acc out,
    summarize_loop mps acc = Ok out ->
    exists ss, out = acc ++ ss /\ Forall2 summarized (filter retained mps) ss.
Proof.
  induction mps as [|mp mps IH]; intros acc out H; simpl in H.
  - injection H as <-. exists []. rewrite app_nil_r. split; constructor.
  - simpl. unfold retained at 1.
    destruct (LP.source_git_repository mp) as [r|] eqn:Er.
    + destruct (summarize_mp mp r) as [s|e] eqn:Es; simpl in H; [|discriminate].
      destruct (IH _ _ H) as (ss & -> & F).
      exists (s :: ss). rewrite <- app_assoc. split; [reflexivity|].
      constructor; [|exact F]. exists r. now split.
    + exact (IH _ _ H).
Qed.

Lemma summarize_mps_spec (mps : list LP.MergeProposal) (out : list Summary) :
  summarize_mps mps = Ok out -> Forall2 summarized (filter retained mps) out.
Proof.
  intros H. destruct (summarize_loop_spec mps [] out H) as (ss & -> & F).
  exact F.
Qed.

(** The loop returns when no kept record has the empty string as its
    description. *)
Lemma summarize_loop_returns (mps : list LP.MergeProposal) :
  Forall (fun mp => LP.description mp <> Some "") (filter retained mps) ->
  forall acc, exists out, summarize_loop mps acc = Ok out.
Proof.
  induction mps as [|mp mps IH]; intros F acc; simpl.
  - eauto.
  - simpl in F. unfold retained in F at 1.
    destruct (LP.source_git_repository mp) as [r|].
    + inversion F as [|? ? Hd F']; subst.
      destruct (summarize_mp_returns mp r Hd) as [s ->]. simpl. now apply IH.
    + now apply IH.
Qed.

Lemma summarize_mps_returns (mps : list LP.MergeProposal) :
  Forall (fun mp => LP.description mp <> Some "") (filter retained mps) ->
  exists out,
    summarize_mps mps = Ok out
    /\ Forall2 summarized (filter retained mps) out
    /\ List.length out = List.length (filter retained mps).
Proof.
  intros F. destruct (summarize_loop_returns mps F []) as [out H].
  exists out. split; [exact H|].
  pose proof (summarize_mps_spec mps out H) as F2.
  split; [exact F2 | symmetry; exact (Forall2_length F2)].
Qed.

Lemma option_eq_dec_empty (d : option string) : {d = Some ""} + {d <> Some ""}.
Proof.
  destruct d as [d|]; [|right; discriminate].
  destruct (string_dec d "") as [->|n]; [left; reflexivity|].
  right; intros [= E]; now apply n.
Qed.

(** The loop stops with [IndexError] at the first kept record whose
    description is the empty string. *)
Lemma summarize_loop_raises (mps : list LP.MergeProposal) :
  Exists (fun mp => LP.description mp = Some "") (filter retained mps) ->
  forall acc, summarize_loop mps acc = Raise IndexError.
Proof.
  induction mps as [|mp mps IH]; intros E acc; simpl in *.
  - inversion E.
  - unfold retained in E at 1.
    destruct (LP.source_git_repository mp) as [r|].
    + destruct (option_eq_dec_empty (LP.description mp)) as [Hd|Hd].
      * now rewrite (summarize_mp_empty_description mp r Hd).
      * destruct (summarize_mp_returns mp r Hd) as [s ->]. simpl.
        apply IH. inversion E; subst; [contradiction | assumption].
    + now apply IH.
Qed.

Lemma count_approvals_completed_only (vs : list LP.Vote) :
  count_approvals (filter completed vs) = count_approvals vs.
Proof.
  pose proof (tally_votes_completed_only vs) as H.
  rewrite !tally_votes_spec in H. now injection H.
Qed.

(** C3: in every list the summarizer returns, the summary of a kept record
    has as [approval_count] the number of its votes that are not pending
    and whose comment's vote is the string "Approve"; the count and the
    reviewers are those of any vote list with the same non-pending votes,
    so pending votes add to neither. *)
Theorem approval_count_counts_completed_approvals
    (mps : list LP.MergeProposal) (out : list Summary) :
  summarize_mps mps = Ok out ->
  Forall2
    (fun mp s =>
       approval_count s
       = List.length
           (filter (fun v => negb (LP.is_pending v)
                             && (LP.vote (LP.comment v) =? "Approve"))
                   (LP.votes mp))
       /\ forall vs',
            filter completed vs' = filter completed (LP.votes mp) ->
            approval_count s = count_approvals vs'
            /\ reviewers s
               = Py.sorted (map reviewer_name (filter completed vs')))
    (filter retained mps) out.
Proof.
  intros H. apply summarize_mps_spec in H.
  induction H as [|mp s mps' out' (r & _ & Hs) _ IH]; constructor; [|exact IH].
  destruct (summarize_mp_fields mp r s Hs) as (_ & Hr & Hc & _).
  split; [exact Hc|].
  intros vs' E. rewrite E. split; [|exact Hr].
  rewrite Hc, <- (count_approvals_completed_only vs'), E.
  now rewrite count_approvals_completed_only.
Qed.

Lemma approval_count_counts_completed_approvals_witness :
  exists s,
    summarize_mps
      [proposal_of None None sample_votes;
       proposal_of (Some "Fixes bug") fork sample_votes]
    = Ok [s]
    /\ approval_count s = 2
    /\ reviewers s = ["bob"; "bob"; "carol"].
Proof.
  pose proof (approval_count_counts_completed_approvals
    [proposal_of None None sample_votes;
     proposal_of (Some "Fixes bug") fork sample_votes]
    _ eq_refl) as F.
  eexists; split; [reflexivity|].
  inversion F as [|mp s l l' [Hc Hv] F']; subst.
  split; [exact Hc | reflexivity].
Defined.

(** C4, as stated, fails: two completed votes of one reviewer put the name
    twice into [reviewers]. *)
Lemma reviewers_keep_duplicates_counterexample :
  exists s,
    summarize_mps
      [proposal_of (Some "Fixes bug") fork
         [vote_of false "bob" "Needs Fixing"; vote_of false "bob" "Approve"]]
    = Ok [s]
    /\ reviewers s = ["bob"; "bob"]
    /\ ~ NoDup (reviewers s).
Proof.
  eexists; split; [reflexivity|]. split; [reflexivity|].
  simpl. intros N. inversion N as [|? ? Hn _]; subst. apply Hn. now left.
Qed.

(** C4 (amended): in every list the summarizer returns, [reviewers] of a
    kept record is in ascending order and is a rearrangement of the
    reviewer names of the non-pending votes, one entry per vote (every
    entry is [<=] every later one); it is free
    of duplicates exactly when no two non-pending votes name the same
    reviewer. *)
Theorem reviewers_sorted_names_of_completed_votes
    (mps : list LP.MergeProposal) (out : list Summary) :
  summarize_mps mps = Ok out ->
  Forall2
    (fun mp s =>
       let names := map reviewer_name (filter completed (LP.votes mp)) in
       StronglySorted str_le (reviewers s)
       /\ Permutation names (reviewers s)
       /\ (NoDup (reviewers s) <-> NoDup names))
    (filter retained mps) out.
Proof.
  intros H. apply summarize_mps_spec in H.
  induction H as [|mp s mps' out' (r & _ & Hs) _ IH]; constructor; [|exact IH].
  destruct (summarize_mp_fields mp r s Hs) as (_ & Hr & _).
  cbv zeta. rewrite Hr. unfold Py.sorted.
  pose proof (Py.StrSort.Permuted_sort
    (map reviewer_name (filter completed (LP.votes mp)))) as P.
  split; [exact (Py.StrSort.StronglySorted_sort _ str_le_trans)|].
  split; [exact P|].
  split; intros N.
  - exact (Permutation_NoDup (Permutation_sym P) N).
  - exact (Permutation_NoDup P N).
Qed.

Lemma reviewers_sorted_names_of_completed_votes_witness :
  Forall2
    (fun mp s =>
       let names := map reviewer_name (filter completed (LP.votes mp)) in
       StronglySorted str_le (reviewers s)
       /\ Permutation names (reviewers s)
       /\ (NoDup (reviewers s) <-> NoDup names))
    (filter retained [proposal_of (Some "Fixes bug") fork sample_votes])
    [{| author := "alice";
        description := "Fixes bug";
        short_description := "Fixes bug";
        reviewers := ["bob"; "bob"; "carol"];
        approval_count := 2;
        web := "https://example/mp/1";
        target_branch := "main";
        source_branch := "feature-x";
        target_repo := "upstream";
        source_repo := "fork" |}].
Proof.
  apply (reviewers_sorted_names_of_completed_votes
    [proposal_of (Some "Fixes bug") fork sample_votes]).
  reflexivity.
Defined.

(** C5: the claim asks for an empty [short_description] when the
    description is the empty string; the summarizer raises [IndexError]
    there, since [''.splitlines()] has no first element. *)
Theorem empty_description_raises_IndexError :
  Py.splitlines "" = []
  /\ summarize_mps [proposal_of (Some "") fork []] = Raise IndexError.
Proof. split; reflexivity. Qed.

(** C6: the claim asks for one summary per kept record; with a kept record
    whose description is the empty string the summarizer returns no list
    at all, although two records of the input have a source repository. *)
Theorem kept_records_lost_on_empty_description :
  let mps := [proposal_of (Some "Fixes bug") fork [];
              proposal_of None None [];
              proposal_of (Some "") fork []] in
  List.length (filter retained mps) = 2
  /\ summarize_mps mps = Raise IndexError.
Proof. split; reflexivity. Qed.

(** ** The proposal step *)

Lemma mp_label_returns (mp : Summary) : mp_label mp = Ok (label_of mp).
Proof.
  unfold mp_label, label_of, Py.format. cbn. now rewrite append_nil_r.
Qed.

Lemma dict_set_present {V : Type} (k : string) (v : V) (d : dict V) :
  In k (map fst d) -> map fst (dict_set k v d) = map fst d.
Proof.
  induction d as [|[k' v'] d IH]; simpl; intros H; [contradiction|].
  destruct (String.eqb_spec k' k) as [->|n]; simpl; [reflexivity|].
  f_equal. apply IH. destruct H as [H|H]; [contradiction | exact H].
Qed.

Lemma dict_set_fresh {V : Type} (k : string) (v : V) (d : dict V) :
  ~ In k (map fst d) -> dict_set k v d = d ++ [(k, v)].
Proof.
  induction d as [|[k' v'] d IH]; simpl; intros H; [reflexivity|].
  destruct (String.eqb_spec k' k) as [->|n].
  - exfalso. apply H. now left.
  - f_equal. apply IH. intros K. apply H. now right.
Qed.

Lemma dict_set_values {V : Type} (k : string) (v : V) (d : dict V) :
  forall k' v', In (k', v') (dict_set k v d) ->
    (k' = k /\ v' = v) \/ In (k', v') d.
Proof.
  induction d as [|[k0 v0] d IH]; simpl; intros k' v' H.
  - destruct H as [[= <- <-]|[]]. now left.
  - destruct (String.eqb_spec k0 k) as [->|n]; simpl in H.
    + destruct H as [[= <- <-]|H]; [now left | right; now right].
    + destruct H as [H|H]; [right; now left|].
      destruct (IH _ _ H) as [K|K]; [now left | right; now right].
Qed.

Lemma mp_options_loop_returns (mp_summaries : list Summary) :
  forall d, mp_options_loop mp_summaries d = Ok (options_of mp_summaries d).
Proof.
  induction mp_summaries as [|mp rest IH]; intros d; [reflexivity|].
  cbn [mp_options_loop]. rewrite mp_label_returns. cbn [bind].
  rewrite IH. reflexivity.
Qed.

Lemma options_of_keys (mp_summaries : list Summary) :
  forall d,
    NoDup (map fst d) ->
    NoDup (map fst (options_of mp_summaries d))
    /\ forall k, In k (map fst (options_of mp_summaries d))
                 <-> In k (map fst d) \/ In k (map label_of mp_summaries).
Proof.
  induction mp_summaries as [|mp rest IH]; intros d N; simpl.
  - split; [exact N | intros k; tauto].
  - destruct (in_dec string_dec (label_of mp) (map fst d)) as [i|n].
    + specialize (IH (dict_set (label_of mp) mp d)).
      rewrite (dict_set_present _ mp d i) in IH.
      destruct (IH N) as [N' I']. split; [exact N'|].
      intros k. rewrite I'. intuition (subst; auto).
    + specialize (IH (dict_set (label_of mp) mp d)).
      rewrite (dict_set_fresh _ mp d n), map_app in IH. simpl in IH.
      rewrite (dict_set_fresh _ mp d n).
      assert (N2 : NoDup (map fst d ++ [label_of mp])).
      { apply NoDup_app; [exact N | repeat constructor; intros [] |].
        intros x Hx [<-|[]]. now apply n. }
      destruct (IH N2) as [N' I']. split; [exact N'|].
      intros k. rewrite I', in_app_iff. simpl. tauto.
Qed.

Lemma options_of_distinct (mp_summaries : list Summary) :
  forall d,
    NoDup (map fst d ++ map label_of mp_summaries) ->
    options_of mp_summaries d
    = d ++ map (fun mp => (label_of mp, mp)) mp_summaries.
Proof.
  induction mp_summaries as [|mp rest IH]; intros d N; simpl.
  - now rewrite app_nil_r.
  - simpl in N.
    assert (n : ~ In (label_of mp) (map fst d)).
    { intros K. apply NoDup_remove_2 in N. apply N, in_or_app. now left. }
    rewrite (dict_set_fresh _ mp d n), IH.
    + now rewrite <- app_assoc.
    + rewrite map_app, <- app_assoc. exact N.
Qed.

Lemma options_of_values (mp_summaries : list Summary) :
  forall d k mp,
    In (k, mp) (options_of mp_summaries d) ->
    In (k, mp) d \/ (In mp mp_summaries /\ label_of mp = k).
Proof.
  induction mp_summaries as [|m rest IH]; intros d k mp H; simpl in *.
  - now left.
  - destruct (IH _ _ _ H) as [K|[K1 K2]].
    + destruct (dict_set_values _ _ _ _ _ K) as [[-> ->]|K'];
        [right; split; [now left | reflexivity] | now left].
    + right. split; [now right | exact K2].
Qed.

Lemma proposal_box_from (sb tb : option string) (options : dict Summary) :
  forall b,
    fold_left
      (fun listwalker '(mp_summary, mp) =>
         listwalker_append listwalker
           (Button mp_summary (mp_chosen_cb sb tb mp)))
      options b
    = {| contents :=
           contents b
           ++ map (fun '(l, mp) => Button l (mp_chosen_cb sb tb mp)) options;
         focus_position := focus_position b |}.
Proof.
  induction options as [|[l mp] options IH]; intros b; simpl.
  - rewrite app_nil_r. now destruct b.
  - rewrite IH. simpl. now rewrite <- app_assoc.
Qed.

Lemma proposal_box_contents (sb tb : option string) (options : dict Summary) :
  proposal_box sb tb options
  = {| contents :=
         Text "Merge Proposal to Merge" :: Divider
         :: map (fun '(l, mp) => Button l (mp_chosen_cb sb tb mp)) options;
       focus_position := 0 |}.
Proof. unfold proposal_box. now rewrite proposal_box_from. Qed.

Lemma proposal_box_selectable (sb tb : option string) (options : dict Summary) :
  selectable (proposal_box sb tb options)
  = map (fun '(l, mp) => Button l (mp_chosen_cb sb tb mp)) options.
Proof.
  rewrite proposal_box_contents. unfold selectable. simpl.
  induction options as [|[l mp] options IH]; simpl; [reflexivity|].
  now rewrite IH.
Qed.

(** C8, as stated, fails: two different summaries with one label are
    offered as a single entry. *)
Lemma proposal_entries_collapse_counterexample :
  let mp_summaries := [sample_summary "alice"; sample_summary "mallory"] in
  sample_summary "alice" <> sample_summary "mallory"
  /\ mp_label (sample_summary "alice") = mp_label (sample_summary "mallory")
  /\ exists options,
       mp_options mp_summaries = Ok options
       /\ List.length (selectable (proposal_box None None options)) = 1
       /\ List.length mp_summaries = 2.
Proof.
  split; [discriminate|]. split; [reflexivity|].
  eexists; split; [reflexivity|]. split; reflexivity.
Qed.

(** C8 (amended): the proposal step offers one entry per distinct label:
    the comprehension returns, every item of it is shown as a button bound
    to a summary of the input that has this label, the number of entries is
    the number of distinct labels, and when the labels of the summaries
    are pairwise different the entries are the summaries, one each, in
    order. *)
Theorem proposal_entries_one_per_label
    (sb tb : option string) (mp_summaries : list Summary) :
  exists options,
    mp_options mp_summaries = Ok options
    /\ selectable (proposal_box sb tb options)
       = map (fun '(l, mp) => Button l (mp_chosen_cb sb tb mp)) options
    /\ (forall l mp, In (l, mp) options ->
          In mp mp_summaries /\ label_of mp = l)
    /\ List.length (selectable (proposal_box sb tb options))
       = List.length (nodup string_dec (map label_of mp_summaries))
    /\ (NoDup (map label_of mp_summaries) ->
        options = map (fun mp => (label_of mp, mp)) mp_summaries
        /\ List.length (selectable (proposal_box sb tb options))
           = List.length mp_summaries).
Proof.
  exists (options_of mp_summaries []).
  split; [apply mp_options_loop_returns|].
  split; [apply proposal_box_selectable|].
  split.
  { intros l mp H. destruct (options_of_values _ _ _ _ H) as [[]|K]. exact K. }
  destruct (options_of_keys mp_summaries [] (NoDup_nil _)) as [N I].
  split.
  - rewrite proposal_box_selectable, length_map,
      <- (length_map fst (options_of mp_summaries [])).
    apply Permutation_length, NoDup_Permutation;
      [exact N | apply NoDup_nodup |].
    intros k. rewrite I, nodup_In. simpl. tauto.
  - intros D. rewrite proposal_box_selectable, length_map.
    rewrite (options_of_distinct mp_summaries [] D). simpl.
    split; [reflexivity | apply length_map].
Qed.

Lemma proposal_entries_one_per_label_witness :
  exists options,
    mp_options [sample_summary "alice"] = Ok options
    /\ options = [(label_of (sample_summary "alice"), sample_summary "alice")]
    /\ List.length (selectable (proposal_box None None options)) = 1.
Proof.
  destruct (proposal_entries_one_per_label None None [sample_summary "alice"])
    as (options & H1 & _ & _ & _ & H5).
  exists options. split; [exact H1|].
  apply H5. simpl. repeat constructor. intros [].
Defined.

(** ** The branch steps *)

Section BranchStep.

Variable repo : Repo.
Variable title : string.
Variable on_click : string -> Callback.
Variable mp_branch : string.

Let button_of (b : string) : Widget := Button b (on_click b).

Lemma turned_start :
  turned repo title on_click mp_branch []
    (1, None,
     listwalker_append (listwalker_append new_listwalker (Text title)) Divider).
Proof.
  simpl. repeat split; try reflexivity; try discriminate; intros [].
Qed.

Lemma nth_error_snoc_old {A : Type} (l : list A) (a x : A) (n : nat) :
  nth_error l n = Some x -> nth_error (l ++ [a]) n = Some x.
Proof.
  intros H. rewrite nth_error_app1; [exact H|].
  apply nth_error_Some. congruence.
Qed.

Lemma nth_error_snoc_new {A : Type} (l : list A) (a : A) :
  nth_error (l ++ [a]) (List.length l) = Some a.
Proof. rewrite nth_error_app2, Nat.sub_diag; [reflexivity | lia]. Qed.

Lemma turned_step (seen : list string) (st : nat * option nat * ListBox)
    (local_branch : string) :
  turned repo title on_click mp_branch seen st ->
  turned repo title on_click mp_branch (seen ++ [local_branch])
    (branch_turn repo on_click mp_branch st local_branch).
Proof.
  destruct st as [[k f] b]. unfold turned, branch_turn.
  intros (Hk & Hc & Hp & Hs & Hn).
  assert (Hlen : List.length (contents b) = k + 1).
  { rewrite Hc. simpl. rewrite length_map. lia. }
  assert (Hnew : nth_error
            (contents (listwalker_append b (button_of local_branch))) (k + 1)
          = Some (button_of local_branch)).
  { simpl. rewrite <- Hlen. apply nth_error_snoc_new. }
  split; [rewrite length_app; simpl; lia|].
  split; [simpl; rewrite Hc, map_app; reflexivity|].
  split; [exact Hp|].
  destruct (String.eqb_spec local_branch mp_branch) as [Em|Em].
  - (* the branch the proposal records: focus moves here *)
    rewrite andb_false_r. split; [|discriminate].
    intros n [= <-]. split; [lia|].
    exists local_branch. split; [exact Hnew|].
    split; [intros _; exact Em|].
    intros K. exfalso. apply K, in_or_app. right. now left.
  - destruct (String.eqb_spec local_branch (active_branch repo)) as [Ea|Ea];
      destruct f as [n0|]; simpl.
    + (* checked out, but a focus is already set *)
      split; [|discriminate].
      intros n [= <-]. destruct (Hs n0 eq_refl) as (H2 & x & Hx & Hm & Ha).
      split; [exact H2|]. exists x.
      split; [now apply nth_error_snoc_old|].
      split.
      * intros K. apply in_app_or in K. destruct K as [K|[K|[]]];
          [now apply Hm | now destruct Em].
      * intros K. apply Ha. intros K'. apply K, in_or_app. now left.
    + (* checked out and no focus yet: focus is set here *)
      destruct (Hn eq_refl) as [Nm Na].
      split; [|discriminate].
      intros n [= <-]. split; [lia|].
      exists local_branch. split; [exact Hnew|].
      split; [|intros _; exact Ea].
      intros K. apply in_app_or in K. destruct K as [K|[K|[]]];
        [now destruct Nm | now destruct Em].
    + (* any other branch, focus kept *)
      split; [|discriminate].
      intros n [= <-]. destruct (Hs n0 eq_refl) as (H2 & x & Hx & Hm & Ha).
      split; [exact H2|]. exists x.
      split; [now apply nth_error_snoc_old|].
      split.
      * intros K. apply in_app_or in K. destruct K as [K|[K|[]]];
          [now apply Hm | now destruct Em].
      * intros K. apply Ha. intros K'. apply K, in_or_app. now left.
    + (* any other branch, still no focus *)
      split; [discriminate|].
      intros _. destruct (Hn eq_refl) as [Nm Na].
      split; intros K; apply in_app_or in K; destruct K as [K|[K|[]]];
        auto; congruence.
Qed.

Lemma turned_all (l : list string) :
  forall seen st,
    turned repo title on_click mp_branch seen st ->
    turned repo title on_click mp_branch (seen ++ l)
      (fold_left (branch_turn repo on_click mp_branch) l st).
Proof.
  induction l as [|x l IH]; intros seen st H; simpl.
  - now rewrite app_nil_r.
  - replace (seen ++ x :: l) with ((seen ++ [x]) ++ l)
      by now rewrite <- app_assoc.
    apply IH, turned_step, H.
Qed.

(** The list a branch step shows and where its focus is. *)
Lemma branch_box_spec (local_branches : list string) :
  let box := branch_box repo title on_click mp_branch local_branches in
  contents box = Text title :: Divider :: map button_of local_branches
  /\ (In mp_branch local_branches ->
      nth_error (contents box) (focus_position box)
      = Some (button_of mp_branch))
  /\ (~ In mp_branch local_branches ->
      In (active_branch repo) local_branches ->
      nth_error (contents box) (focus_position box)
      = Some (button_of (active_branch repo)))
  /\ (~ In mp_branch local_branches ->
      ~ In (active_branch repo) local_branches ->
      focus_position box = 0).
Proof.
  pose proof (turned_all local_branches [] _ turned_start) as H.
  simpl app in H. cbv zeta. unfold branch_box.
  destruct (fold_left (branch_turn repo on_click mp_branch) local_branches _)
    as [[k f] b].
  destruct H as (Hk & Hc & Hp & Hs & Hn).
  destruct f as [n|].
  - destruct (Hs n eq_refl) as (H2 & x & Hx & Hm & Ha).
    assert (T : Py.truthy_int (Some n) = true).
    { simpl. destruct n; [lia | reflexivity]. }
    rewrite T. simpl.
    split; [exact Hc|].
    split; [intros K; now rewrite Hx, (Hm K)|].
    split; [intros K _; now rewrite Hx, (Ha K)|].
    intros Nm Na. exfalso.
    rewrite Hc in Hx. destruct n as [|[|n]]; try lia. simpl in Hx.
    apply nth_error_In, in_map_iff in Hx. destruct Hx as (y & Ey & Iy).
    injection Ey as Ey _. subst y. rewrite (Ha Nm) in Iy. now apply Na.
  - destruct (Hn eq_refl) as [Nm Na]. simpl.
    split; [exact Hc|].
    split; [intros K; now destruct Nm|].
    split; [intros _ K; now destruct Na|].
    intros _ _. exact Hp.
Qed.

End BranchStep.

Lemma button_position (title : string) (on_click : string -> Callback)
    (l : list string) (p : nat) (b : string) :
  nth_error (Text title :: Divider :: map (fun x => Button x (on_click x)) l) p
  = Some (Button b (on_click b)) ->
  2 <= p /\ nth_error l (p - 2) = Some b.
Proof.
  destruct p as [|[|p]]; simpl; try discriminate.
  rewrite Nat.sub_0_r, nth_error_map.
  destruct (nth_error l p) as [y|]; simpl; [|discriminate].
  intros [= -> _]. split; [lia | reflexivity].
Qed.

(** C9: when no source branch was supplied, choosing a proposal shows the
    source-branch list: a title, a divider and one button per local branch
    in order. If the source branch the proposal records is a local branch,
    the widget in focus is the button of that branch, whether or not the
    checked-out branch is in the list; if it is not but the checked-out
    branch is a local branch, the widget in focus is the button of the
    checked-out branch. In both cases the focus position, less the two
    leading widgets, is a position of that branch in the branch list. *)
Theorem source_step_focus (repo : Repo) (sb tb : option string)
    (chosen_mp : Summary) (w : World) :
  Py.truthy_str sb = false ->
  let box := source_branch_box repo (branches repo) chosen_mp tb in
  let button_of b :=
    Button b (source_branch_chosen_cb (branches repo) chosen_mp tb b) in
  widget (settle (mp_chosen repo sb tb chosen_mp) w) = box
  /\ contents box
     = Text "Source Branch" :: Divider :: map button_of (branches repo)
  /\ (In (source_branch chosen_mp) (branches repo) ->
      nth_error (contents box) (focus_position box)
      = Some (button_of (source_branch chosen_mp))
      /\ 2 <= focus_position box
      /\ nth_error (branches repo) (focus_position box - 2)
         = Some (source_branch chosen_mp))
  /\ (~ In (source_branch chosen_mp) (branches repo) ->
      In (active_branch repo) (branches repo) ->
      nth_error (contents box) (focus_position box)
      = Some (button_of (active_branch repo))
      /\ 2 <= focus_position box
      /\ nth_error (branches repo) (focus_position box - 2)
         = Some (active_branch repo)).
Proof.
  intros Hsb. cbv zeta.
  destruct (branch_box_spec repo "Source Branch"
              (source_branch_chosen_cb (branches repo) chosen_mp tb)
              (source_branch chosen_mp) (branches repo))
    as (Hc & Hm & Ha & _).
  fold (source_branch_box repo (branches repo) chosen_mp tb) in Hc, Hm, Ha.
  split.
  { unfold settle, mp_chosen. rewrite Hsb. reflexivity. }
  split; [exact Hc|].
  split.
  - intros K. specialize (Hm K). split; [exact Hm|].
    rewrite Hc in Hm. exact (button_position _ _ _ _ _ Hm).
  - intros K1 K2. specialize (Ha K1 K2). split; [exact Ha|].
    rewrite Hc in Ha. exact (button_position _ _ _ _ _ Ha).
Qed.

Lemma source_step_focus_witness :
  let box := source_branch_box sample_repo (branches sample_repo)
               (sample_summary "alice") None in
  focus_position box = 3
  /\ nth_error (contents box) (focus_position box)
     = Some (Button "feature-x"
               (source_branch_chosen_cb (branches sample_repo)
                  (sample_summary "alice") None "feature-x")).
Proof.
  split; [reflexivity|].
  apply (source_step_focus sample_repo None None (sample_summary "alice")
           (halted Running []) eq_refl).
  simpl. right. now left.
Defined.

(** ** Flags that test false *)





Section Normal.

Variable repo : Repo.


Lemma set_widget_commute (b : ListBox) :
  commute (set_widget b) (set_widget (norm_box b)).
Proof. now intros w. Qed.











End Normal.


(** A flag that holds a non-empty string bypasses its step. *)
Lemma given_flag_bypasses (repo : Repo) (s : string) :
  s <> "" ->
  (forall tb mp,
     mp_chosen repo (Some s) tb mp
     = source_branch_chosen repo (branches repo) mp tb s)
  /\ (forall lb mp chosen,
        source_branch_chosen repo lb mp (Some s) chosen
        = target_branch_chosen repo mp chosen s).
Proof.
  intros Hs. apply String.eqb_neq in Hs.
  split; intros; unfold mp_chosen, source_branch_chosen; simpl; now rewrite Hs.
Qed.

(** ** The guard of the merge *)

Section Guard.

Variable repo : Repo.

Lemma target_branch_chosen_same (mp : Summary) (s : string) (w : World) :
  target_branch_chosen repo mp s s w = (Ok tt, w).
Proof. unfold target_branch_chosen. now rewrite String.eqb_refl. Qed.

Lemma mp_chosen_equal_flags (b : string) (mp : Summary) (w : World) :
  b <> "" -> mp_chosen repo (Some b) (Some b) mp w = (Ok tt, w).
Proof.
  intros Hb. destruct (given_flag_bypasses repo b Hb) as [H1 H2].
  rewrite H1, H2. apply target_branch_chosen_same.
Qed.

Lemma exit_on_q_keeps (key : string) (w : World) :
  widget (settle (urwid_exit_on_q key) w) = widget w
  /\ git_log (settle (urwid_exit_on_q key) w) = git_log w
  /\ (settle (urwid_exit_on_q key) w = w
      \/ status (settle (urwid_exit_on_q key) w) = Exited).
Proof.
  unfold settle, urwid_exit_on_q.
  destruct ((key =? "q") || (key =? "Q")); simpl; auto.
Qed.

Lemma step_equal_flags (b : string) (w : World) (ev : Event) :
  b <> "" ->
  only_proposals b (widget w) ->
  widget (step repo w ev) = widget w /\ git_log (step repo w ev) = git_log w.
Proof.
  intros Hb H. unfold step.
  destruct (status w); auto.
  destruct ev as [position|key].
  - destruct (nth_error (contents (widget w)) position) as [[s| |l cb]|] eqn:E;
      auto.
    destruct (H _ _ _ E) as [mp ->].
    unfold settle. simpl. now rewrite mp_chosen_equal_flags.
  - destruct (exit_on_q_keeps key w) as (H1 & H2 & _). auto.
Qed.

Lemma run_equal_flags (b : string) (evs : list Event) :
  b <> "" ->
  forall w,
    only_proposals b (widget w) -> git_log (run repo w evs) = git_log w.
Proof.
  intros Hb. unfold run.
  induction evs as [|ev evs IH]; intros w H; simpl; [reflexivity|].
  destruct (step_equal_flags b w ev Hb H) as [Hw Hl].
  rewrite IH; [exact Hl | now rewrite Hw].
Qed.

Lemma proposal_box_only_proposals (b : string) (options : dict Summary) :
  only_proposals b (proposal_box (Some b) (Some b) options).
Proof.
  intros position l cb H. rewrite proposal_box_contents in H. simpl in H.
  destruct position as [|[|position]]; simpl in H; try discriminate.
  apply nth_error_In, in_map_iff in H. destruct H as ([l' mp] & E & _).
  injection E as _ <-. now exists mp.
Qed.

Lemma lpshipit_equal_flags (b : string) (mps : list LP.MergeProposal)
    (evs : list Event) :
  b <> "" -> git_log (lpshipit repo (Some b) (Some b) mps evs) = [].
Proof.
  intros Hb. unfold lpshipit.
  destruct (summarize_mps mps) as [mp_summaries|e]; [|reflexivity].
  destruct (Py.truthy_list mp_summaries); [|reflexivity].
  destruct (mp_options mp_summaries) as [options|e]; [|reflexivity].
  rewrite (run_equal_flags b evs Hb); [reflexivity|].
  apply proposal_box_only_proposals.
Qed.

Lemma target_branch_chosen_guard (mp : Summary) (s t : string) (w : World) :
  git_log w = [] -> merge_guard (settle (target_branch_chosen repo mp s t) w).
Proof.
  intros Hl. unfold settle, target_branch_chosen.
  destruct (String.eqb_spec t s) as [E|E]; simpl; [now left|].
  assert (D : s <> t) by congruence.
  unfold bindM, lift, checkout, execute, request, ret, raise, set_widget.
  destruct (build_commit_msg _ _ _ _ _ _) as [m|e]; [|now left].
  destruct (existsb _ _); [|now left].
  unfold bindM. cbn [fst snd].
  destruct (checkout_ok repo t).
  - destruct (execute_ok repo _).
    + destruct (Py.format _ _ _) as [txt|e]; simpl; rewrite Hl; right; split.
      * right. exists s, t. split; [exact D|]. right. now exists m.
      * right. intros [|[|[|[|[|position]]]]] l cb; simpl; try discriminate.
        -- now intros [= _ <-].
        -- destruct position; discriminate.
      * right. exists s, t. split; [exact D|]. right. now exists m.
      * left. simpl. now destruct e.
    + simpl. rewrite Hl. right. split.
      * right. exists s, t. split; [exact D|]. right. now exists m.
      * left. discriminate.
  - simpl. rewrite Hl. right. split.
    + right. exists s, t. split; [exact D|]. now left.
    + left. discriminate.
Qed.

Lemma source_branch_chosen_guard (lb : list string) (mp : Summary)
    (tb : option string) (s : string) (w : World) :
  git_log w = [] ->
  merge_guard (settle (source_branch_chosen repo lb mp tb s) w).
Proof.
  intros Hl. unfold source_branch_chosen.
  destruct (Py.truthy_str tb); simpl.
  - now apply target_branch_chosen_guard.
  - now left.
Qed.

Lemma call_guard (cb : Callback) (w : World) :
  git_log w = [] -> merge_guard (settle (call repo cb) w).
Proof.
  intros Hl. destruct cb as [sb tb mp|lb mp tb s|mp s t|]; simpl.
  - unfold mp_chosen. destruct (Py.truthy_str sb); simpl.
    + now apply source_branch_chosen_guard.
    + now left.
  - now apply source_branch_chosen_guard.
  - now apply target_branch_chosen_guard.
  - now left.
Qed.

Lemma step_guard (w : World) (ev : Event) :
  merge_guard w -> merge_guard (step repo w ev).
Proof.
  intros G. unfold step.
  destruct (status w) eqn:Es; try exact G.
  destruct G as [Hl|[Hg Hf]].
  - destruct ev as [position|key].
    + destruct (nth_error (contents (widget w)) position) as [[s| |l cb]|];
        try now left.
      now apply call_guard.
    + left. destruct (exit_on_q_keeps key w) as (_ & H & _). now rewrite H.
  - destruct Hf as [Hf|Hf]; [now destruct Hf|].
    right. destruct ev as [position|key].
    + destruct (nth_error (contents (widget w)) position) as [[s| |l cb]|] eqn:E;
        try (split; [exact Hg | now right]).
      rewrite (Hf _ _ _ E). unfold settle. simpl.
      split; [exact Hg | left; discriminate].
    + destruct (exit_on_q_keeps key w) as (Hw & Hlog & [Hk|Hk]).
      * rewrite Hk. split; [exact Hg | now right].
      * rewrite Hlog. split; [exact Hg | left; rewrite Hk; discriminate].
Qed.

Lemma run_guard (evs : list Event) :
  forall w, merge_guard w -> merge_guard (run repo w evs).
Proof.
  unfold run. induction evs as [|ev evs IH]; intros w G; simpl; [exact G|].
  apply IH, step_guard, G.
Qed.

Lemma lpshipit_guard (sb tb : option string) (mps : list LP.MergeProposal)
    (evs : list Event) :
  guarded (git_log (lpshipit repo sb tb mps evs)).
Proof.
  assert (G : merge_guard (lpshipit repo sb tb mps evs)).
  { unfold lpshipit.
    destruct (summarize_mps mps) as [mp_summaries|e]; [|now left].
    destruct (Py.truthy_list mp_summaries); [|now left].
    destruct (mp_options mp_summaries) as [options|e]; [|now left].
    apply run_guard. now left. }
  destruct G as [->|[G _]]; [now left | exact G].
Qed.

End Guard.

(** C2: when the resolved source and target branch are equal the handler
    that performs the merge returns without a checkout, a merge or a change
    of screen, also when reached from a click; with both flags set to the
    same non-empty branch no run of the program makes any request to git;
    and in every run the only requests are a checkout of the target
    followed by the merge of a source different from it. *)
Theorem same_branch_never_merges (repo : Repo) :
  (forall mp s w,
     target_branch_chosen repo mp s s w = (Ok tt, w)
     /\ settle (call repo (target_branch_chosen_cb mp s s)) w = w)
  /\ (forall b mps evs,
        b <> "" ->
        git_log (lpshipit repo (Some b) (Some b) mps evs) = [])
  /\ (forall sb tb mps evs,
        guarded (git_log (lpshipit repo sb tb mps evs))).
Proof.
  split.
  { intros mp s w. split; [apply target_branch_chosen_same|].
    unfold settle. simpl. now rewrite target_branch_chosen_same. }
  split.
  - intros b mps evs Hb. now apply lpshipit_equal_flags.
  - apply lpshipit_guard.
Qed.

Lemma same_branch_never_merges_witness :
  git_log
    (lpshipit sample_repo (Some "main") (Some "main")
       [proposal_of (Some "Fixes bug") fork sample_votes]
       [Click 2; Click 2; Key "q"])
  = [].
Proof.
  apply (proj1 (proj2 (same_branch_never_merges sample_repo))).
  discriminate.
Defined.

(** * Further properties of the program *)

(** ** The summarizer as a whole *)

Lemma summarize_loop_acc (mps : list LP.MergeProposal) :
  forall acc,
    summarize_loop mps acc
    = (out <- summarize_loop mps [] ;; Ok (acc ++ out)).
Proof.
  induction mps as [|mp mps IH]; intros acc; simpl.
  - now rewrite app_nil_r.
  - destruct (LP.source_git_repository mp) as [r|]; [|apply IH].
    destruct (summarize_mp mp r) as [s|e]; simpl; [|reflexivity].
    rewrite (IH (acc ++ [s])), (IH [s]).
    destruct (summarize_loop mps []) as [out|e]; simpl; [|reflexivity].
    now rewrite <- app_assoc.
Qed.


(** X2: summarizing a concatenation is summarizing both parts and
    concatenating the results; a failure of either part is the failure of
    the whole, the first one winning. *)
Theorem summarize_mps_app (mps1 mps2 : list LP.MergeProposal) :
  summarize_mps (mps1 ++ mps2)
  = (out1 <- summarize_mps mps1 ;;
     out2 <- summarize_mps mps2 ;;
     Ok (out1 ++ out2)).
Proof.
  unfold summarize_mps. generalize (@nil Summary) at 1 2.
  induction mps1 as [|mp mps1 IH]; intros acc; simpl.
  - rewrite summarize_loop_acc.
    now destruct (summarize_loop mps2 []).
  - destruct (LP.source_git_repository mp) as [r|]; [|apply IH].
    destruct (summarize_mp mp r) as [s|e]; simpl; [|reflexivity].
    apply IH.
Qed.

Lemma summarize_loop_filter (mps : list LP.MergeProposal) :
  forall acc,
    summarize_loop (filter retained mps) acc = summarize_loop mps acc.
Proof.
  induction mps as [|mp mps IH]; intros acc; simpl; [reflexivity|].
  unfold retained at 1.
  destruct (LP.source_git_repository mp) as [r|] eqn:Er; simpl.
  - rewrite Er. destruct (summarize_mp mp r) as [s|e]; simpl; [|reflexivity].
    apply IH.
  - apply IH.
Qed.

(** X3: records without a source repository play no part: the summarizer
    gives the same result, value or exception, on the input and on the
    input with those records removed, whatever their other fields hold. *)
Theorem summarize_mps_ignores_unretained (mps : list LP.MergeProposal) :
  summarize_mps (filter retained mps) = summarize_mps mps.
Proof. apply summarize_loop_filter. Qed.

(** X4: in every list the summarizer returns, the summary of a kept record
    carries the registrant's name as author, the web link, the display
    names of both repositories, both branch paths normalised, and the
    description with null turned into the empty string. *)
Theorem summary_carries_record_fields
    (mps : list LP.MergeProposal) (out : list Summary) :
  summarize_mps mps = Ok out ->
  Forall2
    (fun mp s =>
       author s = LP.name (LP.registrant mp)
       /\ web s = LP.web_link mp
       /\ Some (source_repo s)
          = option_map LP.display_name (LP.source_git_repository mp)
       /\ target_repo s = LP.display_name (LP.target_git_repository mp)
       /\ source_branch s = _format_git_branch_name (LP.source_git_path mp)
       /\ target_branch s = _format_git_branch_name (LP.target_git_path mp)
       /\ description s
          = match LP.description mp with Some d => d | None => "" end)
    (filter retained mps) out.
Proof.
  intros H. apply summarize_mps_spec in H.
  induction H as [|mp s mps' out' (r & Er & Hs) _ IH]; constructor; [|exact IH].
  destruct (summarize_mp_fields mp r s Hs)
    as (Ha & _ & _ & Hw & Hsb & Htb & Hsr & Htr & Hd & _).
  rewrite Er. simpl. rewrite Hsr. repeat split; assumption.
Qed.

Lemma summary_carries_record_fields_witness :
  exists s,
    summarize_mps [proposal_of (Some "Fixes bug") fork sample_votes] = Ok [s]
    /\ author s = "alice"
    /\ source_branch s = "feature-x"
    /\ target_branch s = "main".
Proof.
  pose proof (summary_carries_record_fields
    [proposal_of (Some "Fixes bug") fork sample_votes] _ eq_refl) as F.
  eexists; split; [reflexivity|].
  inversion F as [|mp s l l' (Ha & _ & _ & _ & Hs & Ht & _) F']; subst.
  repeat split; assumption.
Defined.

(** X5: for a kept record the body returns in these cases: a null
    description gives the empty string for both description fields; a
    non-empty description without a line boundary is its own short
    description; a description with text [pre] free of boundaries followed
    by a boundary has [pre] as short description. *)
Theorem short_description_is_first_line
    (mp : LP.MergeProposal) (r : LP.GitRepository) :
  (LP.description mp = None ->
   exists s, summarize_mp mp r = Ok s
             /\ description s = "" /\ short_description s = "")
  /\ (forall d,
        LP.description mp = Some d -> d <> "" -> has_break d = false ->
        exists s, summarize_mp mp r = Ok s
                  /\ description s = d /\ short_description s = d)
  /\ (forall pre brk post,
        LP.description mp = Some (pre ++ brk ++ post)%string ->
        has_break pre = false -> In brk linebreaks ->
        exists s, summarize_mp mp r = Ok s
                  /\ description s = (pre ++ brk ++ post)%string
                  /\ short_description s = pre).
Proof. exact (short_description_cases mp r). Qed.

Lemma short_description_is_first_line_witness :
  exists s,
    summarize_mp
      (proposal_of
         (Some ("Fixes bug" ++ String Py.CR (String Py.LF "") ++ "More text"))%string
         fork [])
      {| LP.display_name := "fork" |}
    = Ok s
    /\ short_description s = "Fixes bug".
Proof.
  destruct (proj2 (proj2 (short_description_is_first_line
              (proposal_of
                 (Some ("Fixes bug" ++ String Py.CR (String Py.LF "")
                        ++ "More text"))%string fork [])
              {| LP.display_name := "fork" |}))
              "Fixes bug" (String Py.CR (String Py.LF "")) "More text"
              eq_refl eq_refl)
    as (s & Hs & _ & Hshort).
  { unfold linebreaks. simpl. tauto. }
  exists s. split; assumption.
Defined.

Lemma count_approvals_le (vs : list LP.Vote) :
  count_approvals vs <= List.length (filter completed vs).
Proof.
  unfold count_approvals.
  induction vs as [|v vs IH]; simpl; [lia|].
  destruct (completed v); simpl; [|exact IH].
  destruct (approving v); simpl; lia.
Qed.

(** X6: in every list the summarizer returns, a summary never counts more
    approvals than it lists reviewers, and it lists exactly as many
    reviewers as the record has non-pending votes. *)
Theorem approvals_bounded_by_reviewers
    (mps : list LP.MergeProposal) (out : list Summary) :
  summarize_mps mps = Ok out ->
  Forall2
    (fun mp s =>
       approval_count s <= List.length (reviewers s)
       /\ List.length (reviewers s)
          = List.length (filter completed (LP.votes mp))
       /\ List.length (reviewers s) <= List.length (LP.votes mp))
    (filter retained mps) out.
Proof.
  intros H. apply summarize_mps_spec in H.
  induction H as [|mp s mps' out' (r & _ & Hs) _ IH]; constructor; [|exact IH].
  destruct (summarize_mp_fields mp r s Hs) as (_ & Hr & Hc & _).
  assert (L : List.length (reviewers s)
              = List.length (filter completed (LP.votes mp))).
  { rewrite Hr. unfold Py.sorted.
    rewrite <- (Permutation_length (Py.StrSort.Permuted_sort _)).
    apply length_map. }
  split; [|split; [exact L|]].
  - rewrite L, Hc. apply count_approvals_le.
  - rewrite L. apply filter_length_le.
Qed.

Lemma approvals_bounded_by_reviewers_witness :
  exists s,
    summarize_mps [proposal_of (Some "Fixes bug") fork sample_votes] = Ok [s]
    /\ approval_count s <= List.length (reviewers s).
Proof.
  pose proof (approvals_bounded_by_reviewers
    [proposal_of (Some "Fixes bug") fork sample_votes] _ eq_refl) as F.
  eexists; split; [reflexivity|].
  inversion F as [|mp s l l' (Hle & _) F']; subst. exact Hle.
Defined.

(** Two ascending lists with the same elements are the same list. *)
Lemma sorted_unique (l1 : list string) :
  forall l2,
    StronglySorted str_le l1 -> StronglySorted str_le l2 ->
    Permutation l1 l2 -> l1 = l2.
Proof.
  induction l1 as [|a l1 IH]; intros l2 S1 S2 P.
  - apply Permutation_nil in P. now subst.
  - destruct l2 as [|b l2].
    { apply Permutation_sym, Permutation_nil in P. discriminate. }
    inversion S1 as [|? ? S1' F1]; subst.
    inversion S2 as [|? ? S2' F2]; subst.
    assert (E : a = b).
    { assert (Ia : In a (b :: l2))
        by (apply (Permutation_in _ P); now left).
      assert (Ib : In b (a :: l1))
        by (apply (Permutation_in _ (Permutation_sym P)); now left).
      destruct Ia as [<-|Ia]; [reflexivity|].
      destruct Ib as [<-|Ib]; [reflexivity|].
      apply String.leb_antisym.
      - exact (proj1 (Forall_forall _ _) F1 b Ib).
      - exact (proj1 (Forall_forall _ _) F2 a Ia). }
    subst b. f_equal. apply IH; try assumption.
    exact (Permutation_cons_inv P).
Qed.

Lemma sorted_permutation (l1 l2 : list string) :
  Permutation l1 l2 -> Py.sorted l1 = Py.sorted l2.
Proof.
  intros P. unfold Py.sorted. apply sorted_unique.
  - exact (Py.StrSort.StronglySorted_sort _ str_le_trans).
  - exact (Py.StrSort.StronglySorted_sort _ str_le_trans).
  - eapply Permutation_trans;
      [apply Permutation_sym, Py.StrSort.Permuted_sort|].
    eapply Permutation_trans; [exact P | apply Py.StrSort.Permuted_sort].
Qed.

Lemma filter_permutation {A : Type} (f : A -> bool) (l1 l2 : list A) :
  Permutation l1 l2 -> Permutation (filter f l1) (filter f l2).
Proof.
  induction 1 as [|x l l' _ IH|x y l|l l' l'' _ IH1 _ IH2]; simpl.
  - constructor.
  - destruct (f x); [now constructor | exact IH].
  - destruct (f x), (f y); try reflexivity. constructor.
  - eapply Permutation_trans; eassumption.
Qed.

(** X7: the order in which the service lists the votes does not matter:
    a record whose votes are rearranged gets the same result from the loop
    body, summary or exception. *)
Theorem summary_independent_of_vote_order
    (mp : LP.MergeProposal) (r : LP.GitRepository) (vs : list LP.Vote) :
  Permutation (LP.votes mp) vs ->
  summarize_mp (set_votes mp vs) r = summarize_mp mp r.
Proof.
  intros P. unfold summarize_mp. rewrite !tally_votes_spec. simpl.
  rewrite (sorted_permutation
             (map reviewer_name (filter completed vs))
             (map reviewer_name (filter completed (LP.votes mp)))).
  - unfold count_approvals.
    now rewrite (Permutation_length
                   (filter_permutation _ _ _ (Permutation_sym P))).
  - apply Permutation_map, filter_permutation, Permutation_sym, P.
Qed.

Lemma summary_independent_of_vote_order_witness :
  summarize_mp
    (set_votes (proposal_of (Some "Fixes bug") fork sample_votes)
       (rev sample_votes))
    {| LP.display_name := "fork" |}
  = summarize_mp (proposal_of (Some "Fixes bug") fork sample_votes)
      {| LP.display_name := "fork" |}.
Proof.
  apply (summary_independent_of_vote_order
           (proposal_of (Some "Fixes bug") fork sample_votes)).
  apply Permutation_rev.
Defined.

(** ** Branch names, once more *)

(** X8: [_format_git_branch_name] removes at most one leading
    "refs/heads/": its result is the input itself or the input without its
    first eleven bytes, and a name with the prefix twice keeps one. *)
Theorem format_git_branch_name_strips_once (s : string) :
  (_format_git_branch_name s = s
   \/ s = ("refs/heads/" ++ _format_git_branch_name s)%string)
  /\ String.length (_format_git_branch_name s) <= String.length s
  /\ _format_git_branch_name ("refs/heads/" ++ "refs/heads/" ++ s)
     = ("refs/heads/" ++ s)%string.
Proof.
  assert (K : forall rest,
            _format_git_branch_name ("refs/heads/" ++ rest) = rest).
  { intros rest. unfold _format_git_branch_name, Py.startswith, Py.slice_from.
    simpl. rewrite Nat.sub_0_r.
    replace (String.prefix "" rest) with true by (now destruct rest).
    apply substring_whole. }
  split; [|split].
  - unfold _format_git_branch_name at 1, Py.startswith.
    destruct (String.prefix "refs/heads/" s) eqn:E; [|now left].
    right. destruct (prefix_split _ _ E) as [rest ->]. now rewrite K.
  - unfold _format_git_branch_name, Py.startswith.
    destruct (String.prefix "refs/heads/" s) eqn:E; [|lia].
    destruct (prefix_split _ _ E) as [rest ->].
    fold (_format_git_branch_name ("refs/heads/" ++ rest)).
    unfold _format_git_branch_name, Py.startswith in K.
    specialize (K rest). rewrite E in K. rewrite K. simpl. lia.
  - apply (K ("refs/heads/" ++ s)%string).
Qed.

(** ** The entries of the proposal step *)

Lemma dict_set_keeps_keys {V : Type} (k : string) (v : V) (d : dict V) :
  NoDup (map fst d) -> NoDup (map fst (dict_set k v d)).
Proof.
  intros N. destruct (in_dec string_dec k (map fst d)) as [i|n].
  - now rewrite (dict_set_present k v d i).
  - rewrite (dict_set_fresh k v d n), map_app. simpl.
    apply NoDup_app; [exact N | repeat constructor; intros [] |].
    intros x Hx [<-|[]]. now apply n.
Qed.

Lemma dict_set_items {V : Type} (k : string) (v : V) (d : dict V) :
  NoDup (map fst d) ->
  forall k' v', In (k', v') (dict_set k v d) ->
    (k' = k /\ v' = v) \/ (k' <> k /\ In (k', v') d).
Proof.
  induction d as [|[k0 v0] d IH]; simpl; intros N k' v' H.
  - destruct H as [[= <- <-]|[]]. now left.
  - inversion N as [|? ? N0 N']; subst.
    destruct (String.eqb_spec k0 k) as [->|n]; simpl in H.
    + destruct H as [[= <- <-]|H]; [now left|].
      right. split; [|now right].
      intros ->. apply N0. change k with (fst (k, v')). now apply in_map.
    + destruct H as [[= <- <-]|H]; [right; split; [exact n | now left]|].
      destruct (IH N' _ _ H) as [K|[K1 K2]]; [now left|].
      right. split; [exact K1 | now right].
Qed.

Lemma last_labelled_cons (l : string) (mp : Summary) (rest : list Summary) :
  last_labelled l (mp :: rest)
  = match last_labelled l rest with
    | Some m => Some m
    | None => if label_of mp =? l then Some mp else None
    end.
Proof.
  unfold last_labelled. simpl. induction (rev rest) as [|x xs IH]; simpl.
  - reflexivity.
  - now destruct (label_of x =? l).
Qed.

Lemma options_of_items (mp_summaries : list Summary) :
  forall d,
    NoDup (map fst d) ->
    forall l mp, In (l, mp) (options_of mp_summaries d) ->
      match last_labelled l mp_summaries with
      | Some m => mp = m
      | None => In (l, mp) d
      end.
Proof.
  induction mp_summaries as [|m rest IH]; intros d N l mp H; simpl in H.
  - exact H.
  - specialize (IH _ (dict_set_keeps_keys (label_of m) m d N) l mp H).
    rewrite last_labelled_cons.
    destruct (last_labelled l rest) as [x|]; [exact IH|].
    destruct (dict_set_items _ _ _ N _ _ IH) as [[-> ->]|[K1 K2]].
    + now rewrite String.eqb_refl.
    + destruct (String.eqb_spec (label_of m) l) as [E|_]; [|exact K2].
      now destruct K1.
Qed.

(** X9: the comprehension never fails, every summary's label is a key of
    it, and the entry of a label is bound to the last summary of the input
    that has this label: when labels collide, the later proposal is the
    one a click selects. *)
Theorem proposal_entry_is_last_with_label (mp_summaries : list Summary) :
  exists options,
    mp_options mp_summaries = Ok options
    /\ NoDup (map fst options)
    /\ (forall mp, In mp mp_summaries -> In (label_of mp) (map fst options))
    /\ (forall l mp, In (l, mp) options ->
          last_labelled l mp_summaries = Some mp).
Proof.
  exists (options_of mp_summaries []).
  split; [apply mp_options_loop_returns|].
  destruct (options_of_keys mp_summaries [] (NoDup_nil _)) as [N I].
  split; [exact N|]. split.
  - intros mp Hmp. apply I. right. now apply in_map.
  - intros l mp H.
    pose proof (options_of_items mp_summaries [] (NoDup_nil _) l mp H) as K.
    destruct (last_labelled l mp_summaries) as [m|]; [now subst | destruct K].
Qed.

(** X10: the label of a summary is always rendered, as
    "{source_repo}/{source_branch}", "->{target_repo}/{target_branch}",
    the short description, "{approval_count} approvals ({reviewers joined
    by a bare comma})" and the web link, each after the first on a new
    line, the last three indented by four spaces. *)
Theorem mp_label_exact (mp : Summary) :
  mp_label mp
  = Ok (source_repo mp ++ "/" ++ source_branch mp
        ++ String Py.LF "->" ++ target_repo mp ++ "/" ++ target_branch mp
        ++ String Py.LF "    " ++ short_description mp
        ++ String Py.LF "    " ++ Py.str_of_nat (approval_count mp)
        ++ " approvals (" ++ String.concat "," (reviewers mp) ++ ")"
        ++ String Py.LF "    " ++ web mp)%string.
Proof. exact (mp_label_returns mp). Qed.

(** ** Runs without proposals *)

(** X11: when no record has a source repository the program prints the
    no-proposals message and ends: no list is shown, nothing is asked of
    git, whatever the flags and the events. *)
Theorem no_kept_record_no_wizard (repo : Repo) (sb tb : option string)
    (mps : list LP.MergeProposal) (evs : list Event) :
  filter retained mps = [] ->
  lpshipit repo sb tb mps evs = halted Exited [no_proposals_message].
Proof.
  intros H. unfold lpshipit, summarize_mps.
  rewrite <- summarize_loop_filter, H. reflexivity.
Qed.

Lemma no_kept_record_no_wizard_witness :
  lpshipit sample_repo (Some "feature-x") (Some "main")
    [proposal_of (Some "") None sample_votes] [Click 2]
  = halted Exited [no_proposals_message].
Proof.
  apply (no_kept_record_no_wizard sample_repo). reflexivity.
Defined.

(** ** The merge *)

Lemma build_commit_msg_of (mp : Summary) (s t : string) :
  build_commit_msg (author mp) (Py.join "," (reviewers mp)) s t
    (description mp) (web mp)
  = Ok (commit_text mp s t).
Proof.
  unfold build_commit_msg, commit_text, Py.format. cbn.
  now rewrite append_nil_r.
Qed.

Lemma merge_summary_text (s t : string) :
  Py.format merge_summary_template []
    [("source_branch", s); ("target_branch", t)]
  = Ok (s ++ " has been merged in to " ++ t ++ " "
        ++ String Py.LF "Changes have _NOT_ been pushed")%string.
Proof. reflexivity. Qed.

Lemma existsb_eqb_In (t : string) (l : list string) :
  existsb (String.eqb t) l = true <-> In t l.
Proof.
  rewrite existsb_exists. split.
  - intros (x & Hx & E). apply String.eqb_eq in E. now subst.
  - intros H. exists t. split; [exact H | apply String.eqb_refl].
Qed.

(** Every outcome of [target_branch_chosen]. *)
Lemma target_branch_chosen_outcome (repo : Repo) (mp : Summary)
    (s t : string) (w : World) :
  settle (target_branch_chosen repo mp s t) w
  = if t =? s then w
    else if negb (existsb (String.eqb t) (branches repo))
    then with_status w (Crashed IndexError)
    else if negb (checkout_ok repo t)
    then with_status (with_log w (git_log w ++ [Checkout t]))
           (Crashed GitCommandError)
    else if negb (execute_ok repo (merge_command mp s t))
    then with_status
           (with_log w (git_log w ++ [Checkout t;
                                      Execute (merge_command mp s t)]))
           (Crashed GitCommandError)
    else with_widget
           (with_log w (git_log w ++ [Checkout t;
                                      Execute (merge_command mp s t)]))
           (merge_summary_box s t).
Proof.
  unfold settle, target_branch_chosen.
  destruct (t =? s); [reflexivity|]. cbn [negb].
  unfold bindM, lift, checkout, execute, request, ret, raise, set_widget.
  rewrite build_commit_msg_of, merge_summary_text.
  fold (merge_command mp s t).
  destruct (existsb (String.eqb t) (branches repo)); [|reflexivity].
  unfold bindM. cbn [fst snd negb].
  destruct (checkout_ok repo t); [|reflexivity].
  cbn [negb].
  destruct (execute_ok repo (merge_command mp s t)); cbn [negb];
    unfold with_widget, with_status, with_log; cbn -[merge_command];
    now rewrite <- app_assoc.
Qed.

Lemma mp_chosen_flags_outcome (repo : Repo) (mp : Summary) (s t : string)
    (w : World) :
  s <> "" -> t <> "" -> s <> t ->
  In t (branches repo) ->
  checkout_ok repo t = true ->
  execute_ok repo (merge_command mp s t) = true ->
  settle (mp_chosen repo (Some s) (Some t) mp) w
  = with_widget
      (with_log w
         (git_log w ++ [Checkout t; Execute (merge_command mp s t)]))
      (merge_summary_box s t).
Proof.
  intros Hs Ht Hst Hin Hc He.
  destruct (given_flag_bypasses repo s Hs) as [B1 _].
  destruct (given_flag_bypasses repo t Ht) as [_ B2].
  rewrite B1, B2, target_branch_chosen_outcome.
  apply String.eqb_neq in Hst. rewrite String.eqb_sym, Hst.
  apply existsb_eqb_In in Hin. now rewrite Hin, Hc, He.
Qed.

(** X12: with a source flag [s] and a target flag [t], both non-empty and
    different, choosing a proposal checks out [t] when [t] is a local
    branch and then runs git merge --no-ff [s] -m with the commit message
    built from the proposal's author, comma-joined reviewers, description
    and web link and from the two flags (not from the branches the
    proposal records); when both succeed the screen becomes the merge
    summary naming [s] and [t] with an Exit button. The source flag is not
    looked up among the local branches. *)
Theorem flagged_merge (repo : Repo) (mp : Summary) (s t : string) (w : World) :
  s <> "" -> t <> "" -> s <> t ->
  In t (branches repo) ->
  checkout_ok repo t = true ->
  execute_ok repo
    ["git"; "merge"; "--no-ff"; s; "-m"; commit_text mp s t] = true ->
  settle (mp_chosen repo (Some s) (Some t) mp) w
  = with_widget
      (with_log w
         (git_log w
          ++ [Checkout t;
              Execute ["git"; "merge"; "--no-ff"; s; "-m";
                       commit_text mp s t]]))
      (merge_summary_box s t).
Proof. exact (mp_chosen_flags_outcome repo mp s t w). Qed.

Lemma flagged_merge_witness :
  settle (mp_chosen sample_repo (Some "feature-x") (Some "main")
            (sample_summary "alice"))
    (halted Running [])
  = with_widget
      (with_log (halted Running [])
         [Checkout "main";
          Execute ["git"; "merge"; "--no-ff"; "feature-x"; "-m";
                   commit_text (sample_summary "alice") "feature-x" "main"]])
      (merge_summary_box "feature-x" "main").
Proof.
  apply (flagged_merge sample_repo (sample_summary "alice") "feature-x" "main"
           (halted Running []));
    try discriminate; try reflexivity.
  simpl. tauto.
Defined.

(** X13: how the merge fails, for different branches [s] and [t]. A
    target that is not a local branch raises [IndexError] before anything
    is asked of git; a failing checkout raises after the checkout alone
    was requested, so no merge is attempted; a failing merge raises after
    both requests. In all three the screen stays as it was: no merge
    summary is shown. *)
Theorem merge_failures (repo : Repo) (mp : Summary) (s t : string) (w : World) :
  s <> t ->
  (~ In t (branches repo) ->
   settle (target_branch_chosen repo mp s t) w
   = with_status w (Crashed IndexError))
  /\ (In t (branches repo) -> checkout_ok repo t = false ->
      settle (target_branch_chosen repo mp s t) w
      = with_status (with_log w (git_log w ++ [Checkout t]))
          (Crashed GitCommandError))
  /\ (In t (branches repo) -> checkout_ok repo t = true ->
      execute_ok repo
        ["git"; "merge"; "--no-ff"; s; "-m"; commit_text mp s t] = false ->
      settle (target_branch_chosen repo mp s t) w
      = with_status
          (with_log w
             (git_log w
              ++ [Checkout t;
                  Execute ["git"; "merge"; "--no-ff"; s; "-m";
                           commit_text mp s t]]))
          (Crashed GitCommandError)).
Proof.
  intros Hst. apply String.eqb_neq in Hst.
  rewrite target_branch_chosen_outcome, String.eqb_sym, Hst.
  split; [|split].
  - intros Hin.
    destruct (existsb (String.eqb t) (branches repo)) eqn:E; [|reflexivity].
    apply existsb_eqb_In in E. now destruct Hin.
  - intros Hin Hc. apply existsb_eqb_In in Hin. now rewrite Hin, Hc.
  - intros Hin Hc He. apply existsb_eqb_In in Hin.
    unfold merge_command. now rewrite Hin, Hc, He.
Qed.

Lemma merge_failures_witness :
  settle (target_branch_chosen sample_repo (sample_summary "alice")
            "feature-x" "release")
    (halted Running [])
  = with_status (halted Running []) (Crashed IndexError).
Proof.
  apply (proj1 (merge_failures sample_repo (sample_summary "alice")
                  "feature-x" "release" (halted Running [])
                  ltac:(discriminate))).
  simpl. intros [H|[H|[H|[]]]]; discriminate H.
Defined.

(** ** The target-branch step *)

(** X14: when no target branch was supplied, choosing a source branch
    shows the target-branch list: a title, a divider and one button per
    local branch in order, each bound to the source branch just chosen.
    The widget in focus is the button of the target branch the proposal
    records when that is a local branch, else the button of the
    checked-out branch when that is a local branch. *)
Theorem target_step_focus (repo : Repo) (lb : list string)
    (tb : option string) (chosen_mp : Summary) (chosen_source : string)
    (w : World) :
  Py.truthy_str tb = false ->
  let box := target_branch_box repo lb chosen_mp chosen_source in
  let button_of b :=
    Button b (target_branch_chosen_cb chosen_mp chosen_source b) in
  settle (source_branch_chosen repo lb chosen_mp tb chosen_source) w
  = with_widget w box
  /\ contents box = Text "Target Branch" :: Divider :: map button_of lb
  /\ (In (target_branch chosen_mp) lb ->
      nth_error (contents box) (focus_position box)
      = Some (button_of (target_branch chosen_mp))
      /\ nth_error lb (focus_position box - 2)
         = Some (target_branch chosen_mp))
  /\ (~ In (target_branch chosen_mp) lb ->
      In (active_branch repo) lb ->
      nth_error (contents box) (focus_position box)
      = Some (button_of (active_branch repo))
      /\ nth_error lb (focus_position box - 2) = Some (active_branch repo)).
Proof.
  intros Htb. cbv zeta.
  destruct (branch_box_spec repo "Target Branch"
              (target_branch_chosen_cb chosen_mp chosen_source)
              (target_branch chosen_mp) lb)
    as (Hc & Hm & Ha & _).
  fold (target_branch_box repo lb chosen_mp chosen_source) in Hc, Hm, Ha.
  split.
  { unfold settle, source_branch_chosen. rewrite Htb. reflexivity. }
  split; [exact Hc|].
  split.
  - intros K. specialize (Hm K). split; [exact Hm|].
    rewrite Hc in Hm. exact (proj2 (button_position _ _ _ _ _ Hm)).
  - intros K1 K2. specialize (Ha K1 K2). split; [exact Ha|].
    rewrite Hc in Ha. exact (proj2 (button_position _ _ _ _ _ Ha)).
Qed.

Lemma target_step_focus_witness :
  let box := target_branch_box sample_repo (branches sample_repo)
               (sample_summary "alice") "feature-x" in
  focus_position box = 2
  /\ nth_error (contents box) (focus_position box)
     = Some (Button "main"
               (target_branch_chosen_cb (sample_summary "alice")
                  "feature-x" "main")).
Proof.
  split; [reflexivity|].
  apply (target_step_focus sample_repo (branches sample_repo) None
           (sample_summary "alice") "feature-x" (halted Running []) eq_refl).
  simpl. now left.
Defined.



(** ** Leaving the wizard *)

Lemma run_app (repo : Repo) (w : World) (evs1 evs2 : list Event) :
  run repo w (evs1 ++ evs2) = run repo (run repo w evs1) evs2.
Proof. unfold run. apply fold_left_app. Qed.

Lemma run_stopped (repo : Repo) (evs : list Event) :
  forall w, status w <> Running -> run repo w evs = w.
Proof.
  unfold run. induction evs as [|ev evs IH]; intros w H; simpl; [reflexivity|].
  assert (E : step repo w ev = w).
  { unfold step. destruct (status w); [now destruct H | reflexivity..]. }
  rewrite E. now apply IH.
Qed.

(** X16: pressing q or Q at any point of a run ends it there: the screen,
    the requests made to git and the output are those reached before the
    key, the run is no longer running, and nothing that follows the key
    has any effect. *)
Theorem quit_key_ends_run (repo : Repo) (w : World)
    (evs1 evs2 : list Event) (key : string) :
  key = "q" \/ key = "Q" ->
  let before := run repo w evs1 in
  let after := run repo w (evs1 ++ Key key :: evs2) in
  widget after = widget before
  /\ git_log after = git_log before
  /\ stdout after = stdout before
  /\ status after <> Running
  /\ (status before = Running -> status after = Exited).
Proof.
  intros Hk. cbv zeta. rewrite run_app.
  set (before := run repo w evs1).
  change (run repo before (Key key :: evs2))
    with (run repo (step repo before (Key key)) evs2).
  assert (Q : (key =? "q") || (key =? "Q") = true).
  { destruct Hk as [->| ->]; reflexivity. }
  unfold step. destruct (status before) eqn:Es.
  - unfold settle, urwid_exit_on_q, raise. rewrite Q.
    rewrite run_stopped by (simpl; discriminate). simpl.
    repeat split; try reflexivity. discriminate.
  - rewrite run_stopped by (rewrite Es; discriminate).
    repeat split; try reflexivity; rewrite Es; discriminate.
  - rewrite run_stopped by (rewrite Es; discriminate).
    repeat split; try reflexivity; rewrite Es; discriminate.
Qed.

Lemma quit_key_ends_run_witness :
  let w := with_widget (halted Running [])
             (source_branch_box sample_repo (branches sample_repo)
                (sample_summary "alice") None) in
  git_log (run sample_repo w ([Click 3] ++ Key "q" :: [Click 2; Click 4]))
  = git_log (run sample_repo w [Click 3]).
Proof.
  cbv zeta.
  apply (quit_key_ends_run sample_repo _ [Click 3] [Click 2; Click 4] "q").
  now left.
Defined.



(** ** One merge per run *)

(** X18: a run attempts at most one merge. Once anything has been asked of
    git the run has ended or the only handler left on screen is the exit,
    so the requests of a whole run are at most one checkout and one
    command. *)
Theorem one_merge_per_run (repo : Repo) (sb tb : option string)
    (mps : list LP.MergeProposal) (evs : list Event) :
  let w := lpshipit repo sb tb mps evs in
  (git_log w = [] \/ finished w) /\ List.length (git_log w) <= 2.
Proof.
  cbv zeta.
  assert (G : merge_guard (lpshipit repo sb tb mps evs)).
  { unfold lpshipit.
    destruct (summarize_mps mps) as [mp_summaries|e]; [|now left].
    destruct (Py.truthy_list mp_summaries); [|now left].
    destruct (mp_options mp_summaries) as [options|e]; [|now left].
    apply run_guard. now left. }
  destruct G as [E|[G F]].
  - rewrite E. split; [now left | simpl; lia].
  - split; [now right|].
    destruct G as [->|(s & t & _ & [->|[m ->]])]; simpl; lia.
Qed.

(** ** Choosing by hand and choosing by flag *)

(** X19: choosing the source branch [s] and the target branch [t] in the
    two branch steps asks of git exactly what the flags [s] and [t] ask,
    with the same status and output; when the merge went through the
    screens agree too. *)
Theorem interactive_choice_like_flags (repo : Repo) (mp : Summary)
    (s t : string) (i j : nat) (w : World) :
  status w = Running ->
  s <> "" -> t <> "" ->
  nth_error (branches repo) i = Some s ->
  nth_error (branches repo) j = Some t ->
  let by_hand :=
    run repo (settle (mp_chosen repo None None mp) w)
      [Click (2 + i); Click (2 + j)] in
  let by_flag := settle (mp_chosen repo (Some s) (Some t) mp) w in
  git_log by_hand = git_log by_flag
  /\ status by_hand = status by_flag
  /\ stdout by_hand = stdout by_flag
  /\ (s <> t -> status by_flag = Running -> widget by_hand = widget by_flag).
Proof.
  intros Hw Hs Ht Hi Hj. cbv zeta.
  destruct (given_flag_bypasses repo s Hs) as [B1 _].
  destruct (given_flag_bypasses repo t Ht) as [_ B2].
  rewrite B1, B2.
  change (settle (mp_chosen repo None None mp) w)
    with (with_widget w (source_branch_box repo (branches repo) mp None)).
  set (lb := branches repo) in *.
  destruct (branch_box_spec repo "Source Branch"
              (source_branch_chosen_cb lb mp None) (source_branch mp) lb)
    as (Hc1 & _).
  fold (source_branch_box repo lb mp None) in Hc1.
  destruct (branch_box_spec repo "Target Branch"
              (target_branch_chosen_cb mp s) (target_branch mp) lb)
    as (Hc2 & _).
  fold (target_branch_box repo lb mp s) in Hc2.
  unfold run. cbn [fold_left].
  assert (S1 : step repo (with_widget w (source_branch_box repo lb mp None))
                 (Click (2 + i))
               = with_widget w (target_branch_box repo lb mp s)).
  { unfold step. cbn [status with_widget widget]. rewrite Hw, Hc1.
    cbn [nth_error Nat.add]. rewrite nth_error_map, Hi. reflexivity. }
  rewrite S1.
  assert (S2 : step repo (with_widget w (target_branch_box repo lb mp s))
                 (Click (2 + j))
               = settle (target_branch_chosen repo mp s t)
                   (with_widget w (target_branch_box repo lb mp s))).
  { unfold step. cbn [status with_widget widget]. rewrite Hw, Hc2.
    cbn [nth_error Nat.add]. rewrite nth_error_map, Hj. reflexivity. }
  rewrite S2, !target_branch_chosen_outcome.
  destruct (t =? s) eqn:Ets.
  { apply String.eqb_eq in Ets. subst t.
    split; [reflexivity|]. split; [reflexivity|]. split; [reflexivity|].
    intros K. now destruct K. }
  subst lb.
  destruct (existsb (String.eqb t) (branches repo)); cbn [negb].
  2:{ split; [reflexivity|]. split; [reflexivity|]. split; [reflexivity|].
      intros _ K. discriminate K. }
  destruct (checkout_ok repo t); cbn [negb].
  2:{ split; [reflexivity|]. split; [reflexivity|]. split; [reflexivity|].
      intros _ K. discriminate K. }
  destruct (execute_ok repo (merge_command mp s t)); cbn [negb].
  - split; [reflexivity|]. split; [reflexivity|]. split; reflexivity.
  - split; [reflexivity|]. split; [reflexivity|]. split; [reflexivity|].
    intros _ K. discriminate K.
Qed.

Lemma interactive_choice_like_flags_witness :
  git_log
    (run sample_repo
       (settle (mp_chosen sample_repo None None (sample_summary "alice"))
          (halted Running []))
       [Click 3; Click 2])
  = git_log
      (settle (mp_chosen sample_repo (Some "feature-x") (Some "main")
                 (sample_summary "alice"))
         (halted Running [])).
Proof.
  apply (interactive_choice_like_flags sample_repo (sample_summary "alice")
           "feature-x" "main" 1 0 (halted Running []));
    try reflexivity; discriminate.
Defined.

(** ** The short description is one line *)

Lemma starts_split (b : string) :
  forall s, starts b s = true -> exists post, s = (b ++ post)%string.
Proof.
  induction b as [|x b IH]; intros s H; simpl in H.
  - now exists s.
  - destruct s as [|y s]; [discriminate|].
    apply andb_prop in H. destruct H as [E H].
    apply Ascii.eqb_eq in E. subst y.
    destruct (IH s H) as [post ->]. now exists post.
Qed.

Lemma starts_app (b : string) :
  forall s tail, starts b s = true -> starts b (s ++ tail) = true.
Proof.
  induction b as [|x b IH]; intros s tail H; simpl in *; [reflexivity|].
  destruct s as [|y s]; [discriminate|]. simpl.
  apply andb_prop in H. destruct H as [E H].
  now rewrite E, (IH s tail H).
Qed.

(** The first line is a prefix of the text that holds no boundary, and
    what follows it is nothing or begins with a boundary. *)
Lemma splitlines_go_first (s : string) :
  forall cur line rest,
    Py.splitlines_go cur s = line :: rest ->
    exists pre tail,
      s = (pre ++ tail)%string
      /\ line = (cur ++ pre)%string
      /\ has_break pre = false
      /\ (tail = ""
          \/ exists brk post, In brk linebreaks /\ tail = (brk ++ post)%string).
Proof.
  induction s as [|c s IH]; intros cur line rest H.
  - exists "", "". simpl in H.
    destruct cur; [discriminate|]. injection H as <- _.
    repeat split; auto. now rewrite append_nil_r.
  - destruct (existsb (fun b => starts b (String c s)) linebreaks) eqn:E.
    + apply existsb_exists in E. destruct E as (brk & Hb & Hs).
      destruct (starts_split _ _ Hs) as [post Hp].
      exists "", (String c s). rewrite Hp in H |- *.
      destruct (splitlines_go_at_break cur brk post Hb) as [rest' K].
      rewrite K in H. injection H as <- _.
      split; [reflexivity|]. split; [now rewrite append_nil_r|].
      split; [reflexivity|]. right. now exists brk, post.
    + pose proof (splitlines_go_head cur c s "" ) as K.
      rewrite append_nil_r in K. rewrite (K E eq_refl) in H.
      destruct (IH _ _ _ H) as (pre & tail & -> & -> & Hn & Ht).
      exists (String c pre), tail.
      split; [reflexivity|].
      split; [now rewrite append_assoc|].
      split; [|exact Ht].
      cbn [has_break]. rewrite Hn, orb_false_r.
      destruct (existsb (fun b => starts b (String c pre)) linebreaks) eqn:E2;
        [|reflexivity].
      apply existsb_exists in E2. destruct E2 as (brk & Hb & Hs).
      rewrite <- E. symmetry. apply existsb_exists. exists brk.
      split; [exact Hb|]. exact (starts_app brk (String c pre) tail Hs).
Qed.

(** X20: in every list the summarizer returns, the short description of a
    summary holds no line boundary, the description begins with it, and
    what follows it in the description is nothing or begins with a line
    boundary. *)
Theorem short_description_single_line
    (mps : list LP.MergeProposal) (out : list Summary) :
  summarize_mps mps = Ok out ->
  Forall
    (fun s =>
       has_break (short_description s) = false
       /\ exists tail,
            description s = (short_description s ++ tail)%string
            /\ (tail = ""
                \/ exists brk post,
                     In brk linebreaks /\ tail = (brk ++ post)%string))
    out.
Proof.
  intros H. apply summarize_mps_spec in H.
  induction H as [|mp s mps' out' (r & _ & Hs) _ IH]; constructor; [|exact IH].
  destruct (summarize_mp_fields mp r s Hs)
    as (_ & _ & _ & _ & _ & _ & _ & _ & Hd & Hsd).
  destruct (LP.description mp) as [d|].
  - unfold Py.getitem in Hsd.
    destruct (Py.splitlines d) as [|line rest] eqn:E; [discriminate|].
    simpl in Hsd. injection Hsd as <-.
    destruct (splitlines_go_first d "" line rest E)
      as (pre & tail & -> & -> & Hn & Ht).
    simpl. split; [exact Hn|]. exists tail. split; [exact Hd | exact Ht].
  - rewrite Hsd, Hd. split; [reflexivity|]. exists "". split; auto.
Qed.

Lemma short_description_single_line_witness :
  Forall
    (fun s =>
       has_break (short_description s) = false
       /\ exists tail,
            description s = (short_description s ++ tail)%string
            /\ (tail = ""
                \/ exists brk post,
                     In brk linebreaks /\ tail = (brk ++ post)%string))
    [{| author := "alice";
        description := "Fixes bug" ++ String Py.LF "More text";
        short_description := "Fixes bug";
        reviewers := [];
        approval_count := 0;
        web := "https://example/mp/1";
        target_branch := "main";
        source_branch := "feature-x";
        target_repo := "upstream";
        source_repo := "fork" |}].
Proof.
  apply (short_description_single_line
           [proposal_of (Some ("Fixes bug" ++ String Py.LF "More text")%string)
              fork []]).
  reflexivity.
Defined.

(** ** Whole runs *)

(** X21: with one proposal that the summarizer turns into [s], and with
    two different non-empty flags, activating the single entry of the
    proposal list makes exactly one checkout, of the target, and one
    merge, of the source, without fast-forward and with the built message,
    and shows the merge summary; activating its Exit button then ends the
    run with the same two requests. *)
Theorem single_proposal_run (repo : Repo) (mp : LP.MergeProposal)
    (s : Summary) (sb tb : string) :
  summarize_mps [mp] = Ok [s] ->
  sb <> "" -> tb <> "" -> sb <> tb ->
  In tb (branches repo) ->
  checkout_ok repo tb = true ->
  execute_ok repo
    ["git"; "merge"; "--no-ff"; sb; "-m"; commit_text s sb tb] = true ->
  let requests :=
    [Checkout tb;
     Execute ["git"; "merge"; "--no-ff"; sb; "-m"; commit_text s sb tb]] in
  lpshipit repo (Some sb) (Some tb) [mp] [Click 2]
  = {| widget := merge_summary_box sb tb; git_log := requests;
       stdout := []; status := Running |}
  /\ lpshipit repo (Some sb) (Some tb) [mp] [Click 2; Click 4]
     = {| widget := merge_summary_box sb tb; git_log := requests;
          stdout := []; status := Exited |}.
Proof.
  intros Hsum Hs Ht Hst Hin Hc He. cbv zeta.
  unfold lpshipit. rewrite Hsum. cbn [Py.truthy_list].
  unfold mp_options. rewrite mp_options_loop_returns.
  cbn [options_of fold_left dict_set]. rewrite proposal_box_contents.
  cbn [map].
  set (w0 := {| widget := _; git_log := []; stdout := []; status := Running |}).
  assert (S1 : step repo w0 (Click 2)
               = {| widget := merge_summary_box sb tb;
                    git_log :=
                      [Checkout tb;
                       Execute ["git"; "merge"; "--no-ff"; sb; "-m";
                                commit_text s sb tb]];
                    stdout := []; status := Running |}).
  { unfold step. cbn [status w0 widget contents nth_error call].
    rewrite (mp_chosen_flags_outcome repo s sb tb w0 Hs Ht Hst Hin Hc He).
    reflexivity. }
  split.
  - unfold run. cbn [fold_left]. exact S1.
  - unfold run. cbn [fold_left]. rewrite S1. reflexivity.
Qed.

Lemma single_proposal_run_witness :
  git_log
    (lpshipit sample_repo (Some "feature-x") (Some "main")
       [proposal_of (Some "Fixes bug") fork []] [Click 2])
  = [Checkout "main";
     Execute ["git"; "merge"; "--no-ff"; "feature-x"; "-m";
              ("Merge feature-x into main [a=alice] [r=]"
               ++ String Py.LF (String Py.LF "Fixes bug")
               ++ String Py.LF (String Py.LF "MP: https://example/mp/1"))%string]].
Proof.
  rewrite (proj1 (single_proposal_run sample_repo
                    (proposal_of (Some "Fixes bug") fork []) _
                    "feature-x" "main" eq_refl
                    ltac:(discriminate) ltac:(discriminate)
                    ltac:(discriminate) (or_introl eq_refl)
                    eq_refl eq_refl)).
  reflexivity.
Defined.

(** X22: one record with a source repository and the empty string as
    description stops the whole program with [IndexError] before any list
    is shown: nothing is printed and nothing is asked of git, whatever the
    other records, the flags and the events. *)
Theorem empty_description_stops_program (repo : Repo)
    (sb tb : option string) (mps : list LP.MergeProposal)
    (evs : list Event) :
  Exists (fun mp => LP.description mp = Some "") (filter retained mps) ->
  lpshipit repo sb tb mps evs = halted (Crashed IndexError) [].
Proof.
  intros E. unfold lpshipit, summarize_mps.
  now rewrite (summarize_loop_raises mps E).
Qed.

Lemma empty_description_stops_program_witness :
  lpshipit sample_repo None None
    [proposal_of (Some "Fixes bug") fork sample_votes;
     proposal_of (Some "") fork []]
    [Click 2]
  = halted (Crashed IndexError) [].
Proof.
  apply (empty_description_stops_program sample_repo).
  simpl. right. now left.
Defined.


Lemma proposal_entry_is_last_with_label_witness :
  exists options,
    mp_options [sample_summary "alice"; sample_summary "mallory"] = Ok options
    /\ In (label_of (sample_summary "alice")) (map fst options)
    /\ forall l mp, In (l, mp) options ->
         last_labelled l [sample_summary "alice"; sample_summary "mallory"]
         = Some mp.
Proof.
  destruct (proposal_entry_is_last_with_label
              [sample_summary "alice"; sample_summary "mallory"])
    as (options & H1 & _ & H3 & H4).
  exists options. split; [exact H1|]. split; [|exact H4].
  apply H3. simpl. now left.
Defined.
